(** * OBS stream control: a shallow embedding of [obs_live.py] and [obs-auto.py]

    The development follows the two source files:

    - [PyVal]    the Python values the program handles (what [json.loads]
                 returns and what [json.dumps] is given), with the handful
                 of Python operations the code applies to them;
    - [Codec]    [str.encode], [bytes.decode], [base64.b64encode] and
                 [hashlib.sha256], as the token derivation uses them;
    - [Clock]    naive [datetime] values, [strptime] for the format
                 [%H:%M], [replace] and [+ timedelta(days=1)];
    - [Run]      the monad of the coroutines: state passing over the
                 controller object and the outside world (socket, clock,
                 standard output), with Python exceptions and the
                 possibility that an [await] never completes;
    - [Prim]     the operations on values, socket, clock and output;
    - [OBS]      the class [OBSController];
    - [Auto]     the trigger of [obs-auto.py];
    - [Spec]     the vocabulary in which the properties are stated;
    - [Examples] concrete sessions;
    - [Main]     the function [main] of [obs_live.py];
    - [Frame], [MoreExamples]  further vocabulary and sessions;
    - the properties, C1 to C10, then X1 to X24. *)

From Stdlib Require Import ZArith List Bool String Ascii Lia.
Import ListNotations.
Local Open Scope Z_scope.

(* ------------------------------------------------------------------ *)
(** ** Python values *)

Module PyVal.

(** A Python [str] is a sequence of Unicode code points. *)
Definition pystr := list Z.

(** A Python [bytes] object: octets, each in [0, 255]. *)
Definition pybytes := list Z.

(** ASCII literals of the source text, as Python strings. *)
Definition lit (s : string) : pystr :=
  map (fun a => Z.of_N (N_of_ascii a)) (list_ascii_of_string s).

Fixpoint str_eqb (a b : pystr) : bool :=
  match a, b with
  | [], [] => true
  | x :: a', y :: b' => (x =? y) && str_eqb a' b'
  | _, _ => false
  end.

(** [json.loads] produces floats beside integers.  Only two things are
    ever asked of a float here: whether it is truthy and whether it equals
    an integer literal.  A finite float is [m * 2^e]. *)
Inductive pyfloat : Type :=
| FNan
| FInf (negative : bool)
| FFinite (m e : Z).

#[warnings="-register-all"]
Inductive pyval : Type :=
| PyNone
| PyBool (b : bool)
| PyInt (n : Z)
| PyFloat (f : pyfloat)
| PyStr (s : pystr)
| PyList (l : list pyval)
| PyDict (d : list (pystr * pyval)).

(** A [dict] is kept as its items in insertion order, keys distinct;
    lookup returns the binding found first. *)
Definition pydict := list (pystr * pyval).

Fixpoint dict_get (k : pystr) (d : pydict) : option pyval :=
  match d with
  | [] => None
  | (k', v) :: d' => if str_eqb k k' then Some v else dict_get k d'
  end.

(** [d[k] = v]: an existing key keeps its position. *)
Fixpoint dict_set (k : pystr) (v : pyval) (d : pydict) : pydict :=
  match d with
  | [] => [(k, v)]
  | (k', v') :: d' =>
      if str_eqb k k' then (k', v) :: d' else (k', v') :: dict_set k v d'
  end.

(** [bool(v)]. *)
Definition truthy (v : pyval) : bool :=
  match v with
  | PyNone => false
  | PyBool b => b
  | PyInt n => negb (n =? 0)
  | PyFloat (FFinite m _) => negb (m =? 0)
  | PyFloat _ => true
  | PyStr s => match s with [] => false | _ => true end
  | PyList l => match l with [] => false | _ => true end
  | PyDict d => match d with [] => false | _ => true end
  end.

(** [f == n] for a float and an integer: exact, as Python compares. *)
Definition float_eq_int (f : pyfloat) (n : Z) : bool :=
  match f with
  | FFinite m e =>
      if 0 <=? e then m * 2 ^ e =? n else m =? n * 2 ^ (- e)
  | _ => false
  end.

(** [v == n] for an integer literal [n]. *)
Definition eq_int (v : pyval) (n : Z) : bool :=
  match v with
  | PyInt k => k =? n
  | PyBool b => (if b then 1 else 0) =? n
  | PyFloat f => float_eq_int f n
  | _ => false
  end.

(** [v == s] for a string literal [s]. *)
Definition eq_str (v : pyval) (s : pystr) : bool :=
  match v with
  | PyStr t => str_eqb t s
  | _ => false
  end.

Fixpoint is_prefix (p s : pystr) : bool :=
  match p, s with
  | [], _ => true
  | x :: p', y :: s' => (x =? y) && is_prefix p' s'
  | _ :: _, [] => false
  end.

(** [p in s] for two strings: substring search. *)
Fixpoint is_substring (p s : pystr) : bool :=
  is_prefix p s ||
  match s with
  | [] => false
  | _ :: s' => is_substring p s'
  end.

End PyVal.
Import PyVal.

(* ------------------------------------------------------------------ *)
(** ** Text and digest codecs *)

Module Codec.

(** *** [str.encode()] (UTF-8, strict) *)

(** One code point.  Surrogates are refused ([UnicodeEncodeError]); a value
    outside [0, 0x10FFFF] is not a code point of any Python string. *)
Definition utf8_char (c : Z) : option pybytes :=
  if c <? 0 then None
  else if c <? 0x80 then Some [c]
  else if c <? 0x800 then
    Some [Z.lor 0xC0 (Z.shiftr c 6); Z.lor 0x80 (Z.land c 0x3F)]
  else if c <? 0x10000 then
    if (0xD800 <=? c) && (c <=? 0xDFFF) then None
    else Some [Z.lor 0xE0 (Z.shiftr c 12);
               Z.lor 0x80 (Z.land (Z.shiftr c 6) 0x3F);
               Z.lor 0x80 (Z.land c 0x3F)]
  else if c <? 0x110000 then
    Some [Z.lor 0xF0 (Z.shiftr c 18);
          Z.lor 0x80 (Z.land (Z.shiftr c 12) 0x3F);
          Z.lor 0x80 (Z.land (Z.shiftr c 6) 0x3F);
          Z.lor 0x80 (Z.land c 0x3F)]
  else None.

Fixpoint encode (s : pystr) : option pybytes :=
  match s with
  | [] => Some []
  | c :: s' =>
      match utf8_char c, encode s' with
      | Some b, Some bs => Some (b ++ bs)
      | _, _ => None
      end
  end.

(** *** [bytes.decode()] (UTF-8, strict) *)

Definition is_cont (b : Z) : bool := (0x80 <=? b) && (b <=? 0xBF).

Definition cont_bits (b : Z) : Z := Z.land b 0x3F.

Definition prepend (c : Z) (r : option pystr) : option pystr :=
  match r with
  | Some s => Some (c :: s)
  | None => None
  end.

(** Overlong forms, surrogates and values above 0x10FFFF are refused, by
    the ranges allowed for the second byte. *)
Fixpoint decode (bs : pybytes) : option pystr :=
  match bs with
  | [] => Some []
  | b0 :: r0 =>
      if (0 <=? b0) && (b0 <? 0x80) then prepend b0 (decode r0)
      else
        match r0 with
        | [] => None
        | b1 :: r1 =>
            if (0xC2 <=? b0) && (b0 <=? 0xDF) then
              if is_cont b1 then
                prepend (Z.lor (Z.shiftl (Z.land b0 0x1F) 6) (cont_bits b1))
                        (decode r1)
              else None
            else
              match r1 with
              | [] => None
              | b2 :: r2 =>
                  if (0xE0 <=? b0) && (b0 <=? 0xEF) then
                    if ((if b0 =? 0xE0 then 0xA0 else 0x80) <=? b1)
                       && (b1 <=? (if b0 =? 0xED then 0x9F else 0xBF))
                       && is_cont b2 then
                      prepend (Z.lor (Z.shiftl (Z.land b0 0x0F) 12)
                                 (Z.lor (Z.shiftl (cont_bits b1) 6)
                                        (cont_bits b2)))
                              (decode r2)
                    else None
                  else
                    match r2 with
                    | [] => None
                    | b3 :: r3 =>
                        if (0xF0 <=? b0) && (b0 <=? 0xF4)
                           && ((if b0 =? 0xF0 then 0x90 else 0x80) <=? b1)
                           && (b1 <=? (if b0 =? 0xF4 then 0x8F else 0xBF))
                           && is_cont b2 && is_cont b3 then
                          prepend
                            (Z.lor (Z.shiftl (Z.land b0 0x07) 18)
                               (Z.lor (Z.shiftl (cont_bits b1) 12)
                                  (Z.lor (Z.shiftl (cont_bits b2) 6)
                                         (cont_bits b3))))
                            (decode r3)
                        else None
                    end
              end
        end
  end.

(** *** [base64.b64encode] (RFC 4648, standard alphabet, padded) *)

Definition b64_char (i : Z) : Z :=
  if i <? 26 then 65 + i                (* A-Z *)
  else if i <? 52 then 97 + (i - 26)    (* a-z *)
  else if i <? 62 then 48 + (i - 52)    (* 0-9 *)
  else if i =? 62 then 43               (* + *)
  else 47.                              (* / *)

Definition pad_char : Z := 61.          (* = *)

Fixpoint b64encode (bs : pybytes) : pybytes :=
  match bs with
  | [] => []
  | [a] =>
      [b64_char (Z.shiftr a 2);
       b64_char (Z.shiftl (Z.land a 3) 4);
       pad_char; pad_char]
  | [a; b] =>
      [b64_char (Z.shiftr a 2);
       b64_char (Z.lor (Z.shiftl (Z.land a 3) 4) (Z.shiftr b 4));
       b64_char (Z.shiftl (Z.land b 15) 2);
       pad_char]
  | a :: b :: c :: rest =>
      b64_char (Z.shiftr a 2)
      :: b64_char (Z.lor (Z.shiftl (Z.land a 3) 4) (Z.shiftr b 4))
      :: b64_char (Z.lor (Z.shiftl (Z.land b 15) 2) (Z.shiftr c 6))
      :: b64_char (Z.land c 63)
      :: b64encode rest
  end.

(** *** [hashlib.sha256(...).digest()] (FIPS 180-4) *)

Definition word (x : Z) : Z := x mod 2 ^ 32.

Definition add32 (x y : Z) : Z := word (x + y).

Definition rotr (n x : Z) : Z :=
  Z.lor (Z.shiftr x n) (word (Z.shiftl x (32 - n))).

Definition Ch (x y z : Z) : Z :=
  Z.lxor (Z.land x y) (Z.land (Z.lxor x 0xFFFFFFFF) z).

Definition Maj (x y z : Z) : Z :=
  Z.lxor (Z.lxor (Z.land x y) (Z.land x z)) (Z.land y z).

Definition bsig0 (x : Z) : Z :=
  Z.lxor (Z.lxor (rotr 2 x) (rotr 13 x)) (rotr 22 x).
Definition bsig1 (x : Z) : Z :=
  Z.lxor (Z.lxor (rotr 6 x) (rotr 11 x)) (rotr 25 x).
Definition ssig0 (x : Z) : Z :=
  Z.lxor (Z.lxor (rotr 7 x) (rotr 18 x)) (Z.shiftr x 3).
Definition ssig1 (x : Z) : Z :=
  Z.lxor (Z.lxor (rotr 17 x) (rotr 19 x)) (Z.shiftr x 10).

(** The round constants and the initial hash value are the first 32
    bits of the fractional parts of the cube roots, respectively of the
    square roots, of the first primes. *)
Definition is_prime (n : Z) : bool :=
  (2 <=? n)
  && forallb (fun d => negb (n mod d =? 0))
             (map Z.of_nat (seq 2 (Z.to_nat (Z.sqrt n) - 1))).

Definition first_primes (n : nat) : list Z :=
  firstn n (filter is_prime (map Z.of_nat (seq 2 320))).

(** The largest [r] below [2^36] with [r^3 <= n]. *)
Definition cube_root (n : Z) : Z :=
  fold_left (fun r i =>
               let c := r + 2 ^ Z.of_nat i in
               if c * c * c <=? n then c else r)
            (rev (seq 0 36)) 0.

Definition K256 : list Z :=
  Eval vm_compute in
    map (fun p => word (cube_root (p * 2 ^ 96))) (first_primes 64).

Definition sha_init : list Z :=
  Eval vm_compute in
    map (fun p => word (Z.sqrt (p * 2 ^ 64))) (first_primes 8).

(** Big-endian octets of a value, [n] of them. *)
Fixpoint be_bytes (n : nat) (x : Z) : pybytes :=
  match n with
  | O => []
  | S n' => be_bytes n' (Z.shiftr x 8) ++ [Z.land x 0xFF]
  end.

(** The message, the bit 1, zeros up to 56 modulo 64, the bit length on
    eight octets. *)
Definition sha_pad (msg : pybytes) : pybytes :=
  let len := Z.of_nat (List.length msg) in
  let zeros := Z.to_nat ((55 - len) mod 64) in
  msg ++ [0x80] ++ repeat 0 zeros ++ be_bytes 8 (8 * len).

Fixpoint be_words (n : nat) (bs : pybytes) : list Z :=
  match n, bs with
  | S n', a :: b :: c :: d :: rest =>
      (Z.shiftl a 24 + Z.shiftl b 16 + Z.shiftl c 8 + d) :: be_words n' rest
  | _, _ => []
  end.

(** The message schedule, most recent word first: [rev_w] holds
    [W(t-1), W(t-2), ...]. *)
Fixpoint schedule (n : nat) (rev_w : list Z) : list Z :=
  match n with
  | O => rev_w
  | S n' =>
      let w := add32 (add32 (ssig1 (nth 1 rev_w 0)) (nth 6 rev_w 0))
                     (add32 (ssig0 (nth 14 rev_w 0)) (nth 15 rev_w 0)) in
      schedule n' (w :: rev_w)
  end.

Record regs : Type := Regs {
  ra : Z; rb : Z; rc : Z; rd : Z; re : Z; rf : Z; rg : Z; rh : Z
}.

Definition round (r : regs) (kw : Z * Z) : regs :=
  let t1 := add32 (add32 (add32 (rh r) (bsig1 (re r)))
                         (add32 (Ch (re r) (rf r) (rg r)) (fst kw)))
                  (snd kw) in
  let t2 := add32 (bsig0 (ra r)) (Maj (ra r) (rb r) (rc r)) in
  Regs (add32 t1 t2) (ra r) (rb r) (rc r)
       (add32 (rd r) t1) (re r) (rf r) (rg r).

Definition compress (h : list Z) (block : pybytes) : list Z :=
  let w := rev (schedule 48 (rev (be_words 16 block))) in
  let r0 := Regs (nth 0 h 0) (nth 1 h 0) (nth 2 h 0) (nth 3 h 0)
                 (nth 4 h 0) (nth 5 h 0) (nth 6 h 0) (nth 7 h 0) in
  let r := fold_left round (combine K256 w) r0 in
  map (fun p => add32 (fst p) (snd p))
      (combine h [ra r; rb r; rc r; rd r; re r; rf r; rg r; rh r]).

Fixpoint sha_blocks (n : nat) (h : list Z) (bs : pybytes) : list Z :=
  match n with
  | O => h
  | S n' => sha_blocks n' (compress h (firstn 64 bs)) (skipn 64 bs)
  end.

Definition sha256 (msg : pybytes) : pybytes :=
  let padded := sha_pad msg in
  flat_map (be_bytes 4)
           (sha_blocks (Nat.div (List.length padded) 64) sha_init padded).

End Codec.

(* ------------------------------------------------------------------ *)
(** ** Wall-clock time *)

Module Clock.

(** A naive [datetime]: calendar fields, no time zone. *)
Record datetime : Type := DateTime {
  year : Z; month : Z; day : Z;
  hour : Z; minute : Z; second : Z; microsecond : Z
}.

Definition is_leap (y : Z) : bool :=
  (y mod 4 =? 0) && (negb (y mod 100 =? 0) || (y mod 400 =? 0)).

Definition days_in_month (y m : Z) : Z :=
  if m =? 2 then (if is_leap y then 29 else 28)
  else if (m =? 4) || (m =? 6) || (m =? 9) || (m =? 11) then 30
  else 31.


(** The time of day in microseconds since midnight. *)
Definition time_of_day (t : datetime) : Z :=
  ((hour t * 60 + minute t) * 60 + second t) * 1000000 + microsecond t.


(** Comparison of naive datetimes is the lexicographic order of their
    fields. *)
Fixpoint lex_compare (a b : list Z) : comparison :=
  match a, b with
  | x :: a', y :: b' =>
      match x ?= y with
      | Eq => lex_compare a' b'
      | c => c
      end
  | _, _ => Eq
  end.

Definition fields (t : datetime) : list Z :=
  [year t; month t; day t; hour t; minute t; second t; microsecond t].

(** [a <= b]. *)
Definition dt_le (a b : datetime) : bool :=
  match lex_compare (fields a) (fields b) with
  | Gt => false
  | _ => true
  end.


(** [t.replace(year=y, month=m, day=d)]: [None] stands for the
    [ValueError] of a date that does not exist. *)
Definition replace_date (t : datetime) (y m d : Z) : option datetime :=
  if (1 <=? y) && (y <=? 9999) && (1 <=? m) && (m <=? 12)
     && (1 <=? d) && (d <=? days_in_month y m)
  then Some (DateTime y m d (hour t) (minute t) (second t) (microsecond t))
  else None.

(** [t + timedelta(days=1)]: [None] stands for the [OverflowError] past
    the year 9999. *)
Definition add_one_day (t : datetime) : option datetime :=
  let with_date y m d :=
    DateTime y m d (hour t) (minute t) (second t) (microsecond t) in
  if day t <? days_in_month (year t) (month t) then
    Some (with_date (year t) (month t) (day t + 1))
  else if month t <? 12 then
    Some (with_date (year t) (month t + 1) 1)
  else if year t <? 9999 then
    Some (with_date (year t + 1) 1 1)
  else None.

(** *** [datetime.strptime(s, "%H:%M")]

    The format compiles to the regular expression
    [(?P<H>2[0-3]|[0-1]\d|\d):(?P<M>[0-5]\d|\d)], matched at the start of
    the string, the alternatives tried from left to right; a match that
    stops before the end of the string is refused ("unconverted data
    remains").  [\d] is any Unicode decimal digit, and [int] reads such
    digits: the table of their values belongs to the interpreter, and is
    taken as the parameter [decimal]. *)

Section Strptime.

Variable decimal : Z -> option Z.

Definition in_range (lo hi c : Z) : bool := (lo <=? c) && (c <=? hi).

Definition colon : Z := 58.

(** The [%H] group followed by the colon: the hour and what follows. *)
Definition match_hour (s : pystr) : option (Z * pystr) :=
  let alt3 :=
    match s with
    | d :: c :: rest =>
        match decimal d with
        | Some v => if c =? colon then Some (v, rest) else None
        | None => None
        end
    | _ => None
    end in
  let alt2 :=
    match s with
    | a :: d :: c :: rest =>
        match decimal d with
        | Some v =>
            if in_range 48 49 a && (c =? colon)
            then Some (10 * (a - 48) + v, rest) else alt3
        | None => alt3
        end
    | _ => alt3
    end in
  match s with
  | a :: b :: c :: rest =>
      if (a =? 50) && in_range 48 51 b && (c =? colon)
      then Some (20 + (b - 48), rest) else alt2
  | _ => alt2
  end.

(** The [%M] group: the minute and what is left unconverted. *)
Definition match_minute (s : pystr) : option (Z * pystr) :=
  let alt2 :=
    match s with
    | d :: rest =>
        match decimal d with
        | Some v => Some (v, rest)
        | None => None
        end
    | [] => None
    end in
  match s with
  | a :: d :: rest =>
      match decimal d with
      | Some v =>
          if in_range 48 53 a then Some (10 * (a - 48) + v, rest) else alt2
      | None => alt2
      end
  | _ => alt2
  end.

(** [None] stands for the [ValueError]; the fields the format does not
    set take their defaults, 1900-01-01 and zero seconds. *)
Definition strptime_HM (s : pystr) : option datetime :=
  match match_hour s with
  | Some (h, rest) =>
      match match_minute rest with
      | Some (m, []) => Some (DateTime 1900 1 1 h m 0 0)
      | _ => None
      end
  | None => None
  end.

End Strptime.

(** The table restricted to the ASCII digits, for examples. *)
Definition ascii_decimal (c : Z) : option Z :=
  if in_range 48 57 c then Some (c - 48) else None.

End Clock.
Import Clock.

(* ------------------------------------------------------------------ *)
(** ** The coroutine monad *)

Module Run.

(** The exceptions that can occur.  [CancelledError] and
    [KeyboardInterrupt] derive from [BaseException] only; the others derive
    from [Exception]. *)
Inductive exn : Type :=
| ConnectionRefusedError
| OSError
| ConnectionClosed
| JSONDecodeError
| KeyError (key : pystr)
| TypeError
| AttributeError
| ValueError
| UnicodeEncodeError
| UnicodeDecodeError
| OverflowError
| PlainException (message : pystr)
| CancelledError
| KeyboardInterrupt.

(** [isinstance(e, Exception)]. *)
Definition is_Exception (e : exn) : bool :=
  match e with
  | CancelledError | KeyboardInterrupt => false
  | _ => true
  end.

(** [isinstance(e, ValueError)]. *)
Definition is_ValueError (e : exn) : bool :=
  match e with
  | ValueError | JSONDecodeError | UnicodeEncodeError | UnicodeDecodeError =>
      true
  | _ => false
  end.

(** [isinstance(e, ConnectionRefusedError)]. *)
Definition is_ConnectionRefusedError (e : exn) : bool :=
  match e with
  | ConnectionRefusedError => true
  | _ => false
  end.

(** How a computation ends: it returns, it raises, or it waits for ever on
    an [await] that never completes. *)
Inductive outcome (A : Type) : Type :=
| Ret (a : A)
| Raise (e : exn)
| Hang.
Arguments Ret {A} a.
Arguments Raise {A} e.
Arguments Hang {A}.

(** What the program writes with [print], one constructor per statement;
    the interpolated values are the arguments. *)
Inductive line : Type :=
| LConnected (host : pystr) (port : Z)
| LReceivedHello
| LIdentified
| LIdentifyFailed (identified_data : pyval)
| LCouldNotConnect
| LMakeSureRunning
| LConnectionError (e : exn)
| LAuthIncluded
| LAuthRequired
| LNoAuthRequired
| LStartOk
| LStartFailed (comment : pyval)
| LStopOk
| LStopFailed (comment : pyval)
| LStreaming
| LDuration (ms : pyval)
| LBytesSent (n : pyval)
| LNotStreaming
| LStatusFailed (comment : pyval)
| LScheduledFor (target : datetime)
| LWaiting (target now : datetime)
| LStartingScheduled
| LWillStop (minutes : Z)
| LStoppingScheduled
| LInvalidTimeFormat
| LSchedulingError (e : exn)
| LDisconnected
| LTriggering.

(** How one operation on the socket goes. *)
Inductive io : Type :=
| Completes
| Fails (e : exn)
| Blocks.

(** What the next [json.loads(await websocket.recv())] yields: the Python
    value of a well-formed frame, or the exception raised by [recv] or by
    [json.loads]. *)
Inductive incoming : Type :=
| Msg (v : pyval)
| Fault (e : exn).

Inductive sock_status : Type :=
| Unopened
| Open
| Closed.

(** An [asyncio.sleep]: until [target], measured from the clock reading
    [now], or for a number of seconds. *)
Inductive nap : Type :=
| NapUntil (target now : datetime)
| NapSeconds (seconds : Z).

(** The outside of the program.  One controller is followed, which owns
    at most one connection.
    - [dial]: how [websockets.connect] goes;
    - [sock]: the state of the connection object;
    - [inbox]: what the peer delivers, in order; once it is exhausted the
      peer stays silent and a [recv] never completes;
    - [send_script]: how the successive [send]s go; once exhausted, every
      [send] completes;
    - [sent]: the values whose [json.dumps] went out, oldest first;
    - [clock], [reads]: [datetime.now()] returns [clock reads] and counts
      the reading;
    - [naps]: the sleeps taken, oldest first;
    - [stdout]: the lines printed, oldest first. *)
Record World : Type := mkWorld {
  dial : io;
  sock : sock_status;
  inbox : list incoming;
  send_script : list io;
  sent : list pyval;
  clock : nat -> datetime;
  reads : nat;
  naps : list nap;
  stdout : list line
}.

(** The attributes of an [OBSController]; [websocket] is [None] or the
    connection object. *)
Record OBSController : Type := mkOBSController {
  host : pystr;
  port : Z;
  password : option pystr;
  websocket : option unit
}.

Definition state : Type := OBSController * World.

Definition M (A : Type) : Type := state -> outcome A * state.

Definition ret {A} (a : A) : M A := fun st => (Ret a, st).

Definition bind {A B} (m : M A) (k : A -> M B) : M B :=
  fun st =>
    match m st with
    | (Ret a, st') => k a st'
    | (Raise e, st') => (Raise e, st')
    | (Hang, st') => (Hang, st')
    end.

Definition raise {A} (e : exn) : M A := fun st => (Raise e, st).

(** A Python expression that may raise, evaluated without effect. *)
Definition eval {A} (r : outcome A) : M A := fun st => (r, st).

Definition get_self : M OBSController := fun st => (Ret (fst st), st).

Definition get_world : M World := fun st => (Ret (snd st), st).

Definition set_self (c : OBSController) : M unit :=
  fun st => (Ret tt, (c, snd st)).

Definition set_world (w : World) : M unit :=
  fun st => (Ret tt, (fst st, w)).

(** [try: body  except <catches>: handler]; an exception for which
    [handler] gives [None] is not caught. *)
Definition try_except {A} (body : M A) (handler : exn -> option (M A)) : M A :=
  fun st =>
    match body st with
    | (Raise e, st') =>
        match handler e with
        | Some h => h st'
        | None => (Raise e, st')
        end
    | r => r
    end.

(** [try: body  finally: cleanup]: the cleanup runs when the body returns
    or raises; what the cleanup raises replaces the outcome of the body. *)
Definition try_finally {A} (body : M A) (cleanup : M unit) : M A :=
  fun st =>
    match body st with
    | (Ret a, st') =>
        match cleanup st' with
        | (Ret _, st'') => (Ret a, st'')
        | (Raise e', st'') => (Raise e', st'')
        | (Hang, st'') => (Hang, st'')
        end
    | (Raise e, st') =>
        match cleanup st' with
        | (Ret _, st'') => (Raise e, st'')
        | (Raise e', st'') => (Raise e', st'')
        | (Hang, st'') => (Hang, st'')
        end
    | (Hang, st') => (Hang, st')
    end.

End Run.
Import Run.

Declare Scope run_scope.
Delimit Scope run_scope with run.
Notation "x <- m ;; k" := (bind m (fun x => k))
  (at level 61, m at next level, right associativity) : run_scope.
Notation "m ;;; k" := (bind m (fun _ => k))
  (at level 61, right associativity) : run_scope.
Local Open Scope run_scope.

(* ------------------------------------------------------------------ *)
(** ** The primitive operations *)

Module Prim.

(** [v[k]] for a string key [k]. *)
Definition getitem (v : pyval) (k : pystr) : outcome pyval :=
  match v with
  | PyDict d =>
      match dict_get k d with
      | Some x => Ret x
      | None => Raise (KeyError k)
      end
  | _ => Raise TypeError
  end.

(** [k in v] for a string [k]: a key of a dict, an element of a list, a
    substring of a string; the other values are not containers. *)
Definition contains (k : pystr) (v : pyval) : outcome bool :=
  match v with
  | PyDict d =>
      Ret (match dict_get k d with Some _ => true | None => false end)
  | PyList l => Ret (existsb (fun x => eq_str x k) l)
  | PyStr s => Ret (is_substring k s)
  | _ => Raise TypeError
  end.

(** [s + v] for a string [s]. *)
Definition str_add (s : pystr) (v : pyval) : outcome pystr :=
  match v with
  | PyStr t => Ret (s ++ t)
  | _ => Raise TypeError
  end.

(** [s.encode()]. *)
Definition str_encode (s : pystr) : outcome pybytes :=
  match Codec.encode s with
  | Some b => Ret b
  | None => Raise UnicodeEncodeError
  end.

(** [b.decode()]. *)
Definition bytes_decode (b : pybytes) : outcome pystr :=
  match Codec.decode b with
  | Some s => Ret s
  | None => Raise UnicodeDecodeError
  end.

Definition with_sock (w : World) (s : sock_status) : World :=
  mkWorld (dial w) s (inbox w) (send_script w) (sent w)
          (clock w) (reads w) (naps w) (stdout w).

Definition with_inbox (w : World) (i : list incoming) : World :=
  mkWorld (dial w) (sock w) i (send_script w) (sent w)
          (clock w) (reads w) (naps w) (stdout w).

Definition with_send_script (w : World) (f : list io) : World :=
  mkWorld (dial w) (sock w) (inbox w) f (sent w)
          (clock w) (reads w) (naps w) (stdout w).

Definition with_sent (w : World) (l : list pyval) : World :=
  mkWorld (dial w) (sock w) (inbox w) (send_script w) l
          (clock w) (reads w) (naps w) (stdout w).

Definition with_reads (w : World) (n : nat) : World :=
  mkWorld (dial w) (sock w) (inbox w) (send_script w) (sent w)
          (clock w) n (naps w) (stdout w).

Definition with_naps (w : World) (l : list nap) : World :=
  mkWorld (dial w) (sock w) (inbox w) (send_script w) (sent w)
          (clock w) (reads w) l (stdout w).

Definition with_stdout (w : World) (l : list line) : World :=
  mkWorld (dial w) (sock w) (inbox w) (send_script w) (sent w)
          (clock w) (reads w) (naps w) l.

Definition with_websocket (c : OBSController) (ws : option unit)
  : OBSController :=
  mkOBSController (host c) (port c) (password c) ws.

(** The text that an f-string makes of [v], [str(v)], can be written to
    standard output.  A string goes out as it is, and UTF-8 has no encoding
    for a lone surrogate, which [json.loads] accepts in a frame as an
    escape; every other value is written through [repr], which escapes
    what cannot be printed. *)
Definition text_encodes (v : pyval) : bool :=
  match v with
  | PyStr s =>
      match Codec.encode s with
      | Some _ => true
      | None => false
      end
  | _ => true
  end.

(** The lines that interpolate a value of a received frame as it is are
    the ones standard output refuses when that value cannot be encoded.
    The other lines carry no received string as it is: they are made of the
    program's own text, of numbers and dates, of the host the controller
    was given, of the [repr] of a received message and of the text of an
    exception, and are taken to go out as the program's own text does. *)
Definition encodes (l : line) : bool :=
  match l with
  | LStartFailed comment | LStopFailed comment | LStatusFailed comment =>
      text_encodes comment
  | LDuration v | LBytesSent v => text_encodes v
  | _ => true
  end.

(** [print(...)]: the line goes out, or [UnicodeEncodeError] is raised and
    nothing is written. *)
Definition print (l : line) : M unit :=
  fun st =>
    if encodes l
    then (Ret tt, (fst st, with_stdout (snd st) (stdout (snd st) ++ [l])))
    else (Raise UnicodeEncodeError, st).

(** [await websockets.connect(uri)]: the connection object. *)
Definition websockets_connect : M unit :=
  fun st =>
    match dial (snd st) with
    | Completes => (Ret tt, (fst st, with_sock (snd st) Open))
    | Fails e => (Raise e, st)
    | Blocks => (Hang, st)
    end.

(** [json.loads(await self.websocket.recv())]. *)
Definition recv_json : M pyval :=
  fun st =>
    match websocket (fst st) with
    | None => (Raise AttributeError, st)
    | Some _ =>
        match sock (snd st) with
        | Open =>
            match inbox (snd st) with
            | [] => (Hang, st)
            | Msg v :: rest => (Ret v, (fst st, with_inbox (snd st) rest))
            | Fault e :: rest => (Raise e, (fst st, with_inbox (snd st) rest))
            end
        | _ => (Raise ConnectionClosed, st)
        end
    end.

(** [await self.websocket.send(json.dumps(v))]. *)
Definition send_json (v : pyval) : M unit :=
  fun st =>
    match websocket (fst st) with
    | None => (Raise AttributeError, st)
    | Some _ =>
        match sock (snd st) with
        | Open =>
            let delivered (script : list io) :=
              (Ret tt,
               (fst st,
                with_sent (with_send_script (snd st) script)
                          (sent (snd st) ++ [v]))) in
            match send_script (snd st) with
            | [] => delivered []
            | Completes :: rest => delivered rest
            | Fails e :: rest =>
                (Raise e, (fst st, with_send_script (snd st) rest))
            | Blocks :: rest =>
                (Hang, (fst st, with_send_script (snd st) rest))
            end
        | _ => (Raise ConnectionClosed, st)
        end
    end.

(** [await self.websocket.close()]: closes; on a connection already
    closed it does nothing. *)
Definition close : M unit :=
  fun st =>
    match websocket (fst st) with
    | None => (Raise AttributeError, st)
    | Some _ => (Ret tt, (fst st, with_sock (snd st) Closed))
    end.

(** [datetime.now()]. *)
Definition now : M datetime :=
  fun st =>
    (Ret (clock (snd st) (reads (snd st))),
     (fst st, with_reads (snd st) (S (reads (snd st))))).

(** The least integer that [float] refuses: the conversion rounds to the
    nearest float, ties to even, and the largest float is
    [2^1024 - 2^971]. *)
Definition float_limit : Z := 2 ^ 1024 - 2 ^ 970.

(** The delay of a sleep cannot be added to the time of the event loop,
    a float.  A delay that is not positive is never added ([sleep] returns
    at once), and the time left until a target is a float already. *)
Definition delay_overflows (n : nap) : bool :=
  match n with
  | NapUntil _ _ => false
  | NapSeconds seconds => float_limit <=? seconds
  end.

(** [await asyncio.sleep(...)]: the sleep is taken, or [OverflowError] is
    raised at once. *)
Definition sleep (n : nap) : M unit :=
  fun st =>
    if delay_overflows n
    then (Raise OverflowError, st)
    else (Ret tt, (fst st, with_naps (snd st) (naps (snd st) ++ [n]))).

End Prim.
Import Prim.

(* ------------------------------------------------------------------ *)
(** ** [obs_live.py]: class [OBSController] *)

Module OBS.

(** [OBSController(host, port, password)]. *)
Definition __init__ (host : pystr) (port : Z) (password : option pystr)
  : OBSController :=
  mkOBSController host port password None.

Definition identify_plain : pyval :=
  PyDict [(lit "op", PyInt 1);
          (lit "d", PyDict [(lit "rpcVersion", PyInt 1)])].

(** [identify_message["d"]["authentication"] = auth_response]. *)
Definition identify_with (auth_response : pystr) : pyval :=
  PyDict [(lit "op", PyInt 1);
          (lit "d",
           PyDict (dict_set (lit "authentication") (PyStr auth_response)
                            [(lit "rpcVersion", PyInt 1)]))].

Definition auth_required_message : pystr :=
  lit "Authentication required but no password provided".

(** [_send_identify], up to its last statement: the value of the local
    [identify_message] when it comes to be sent. *)
Definition identify_message (hello_data : pyval) : M pyval :=
  d <- eval (getitem hello_data (lit "d")) ;;
  challenged <- eval (contains (lit "authentication") d) ;;
  if challenged : bool then
    d <- eval (getitem hello_data (lit "d")) ;;
    auth_data <- eval (getitem d (lit "authentication")) ;;
    challenge <- eval (getitem auth_data (lit "challenge")) ;;
    salt <- eval (getitem auth_data (lit "salt")) ;;
    self <- get_self ;;
    match password self with
    | Some (c :: p) =>
        salted <- eval (str_add (c :: p) salt) ;;
        salted_bytes <- eval (str_encode salted) ;;
        secret <- eval (bytes_decode
                          (Codec.b64encode (Codec.sha256 salted_bytes))) ;;
        challenged_secret <- eval (str_add secret challenge) ;;
        challenged_bytes <- eval (str_encode challenged_secret) ;;
        auth_response <-
          eval (bytes_decode
                  (Codec.b64encode (Codec.sha256 challenged_bytes))) ;;
        print LAuthIncluded ;;;
        ret (identify_with auth_response)
    | _ =>
        print LAuthRequired ;;;
        raise (PlainException auth_required_message)
    end
  else
    print LNoAuthRequired ;;;
    ret identify_plain.

(** [_send_identify(self, hello_data)]. *)
Definition _send_identify (hello_data : pyval) : M unit :=
  message <- identify_message hello_data ;;
  send_json message.

(** [connect(self)]. *)
Definition connect : M bool :=
  try_except
    (websockets_connect ;;;
     self <- get_self ;;
     set_self (with_websocket self (Some tt)) ;;;
     print (LConnected (host self) (port self)) ;;;
     hello_data <- recv_json ;;
     print LReceivedHello ;;;
     _send_identify hello_data ;;;
     identified_data <- recv_json ;;
     op <- eval (getitem identified_data (lit "op")) ;;
     if eq_int op 2 then
       print LIdentified ;;;
       ret true
     else
       print (LIdentifyFailed identified_data) ;;;
       ret false)
    (fun e =>
       if is_ConnectionRefusedError e then
         Some (print LCouldNotConnect ;;;
               print LMakeSureRunning ;;;
               ret false)
       else if is_Exception e then
         Some (print (LConnectionError e) ;;;
               ret false)
       else None).

Definition request (request_type request_id : pystr) : pyval :=
  PyDict [(lit "op", PyInt 6);
          (lit "d", PyDict [(lit "requestType", PyStr request_type);
                            (lit "requestId", PyStr request_id)])].

(** [result["d"]["requestStatus"][field]]. *)
Definition request_status (result : pyval) (field : pystr) : outcome pyval :=
  match getitem result (lit "d") with
  | Ret d =>
      match getitem d (lit "requestStatus") with
      | Ret status => getitem status field
      | Raise e => Raise e
      | Hang => Hang
      end
  | Raise e => Raise e
  | Hang => Hang
  end.

(** [start_streaming(self)]. *)
Definition start_streaming : M unit :=
  send_json (request (lit "StartStream") (lit "start-stream")) ;;;
  result <- recv_json ;;
  ok <- eval (request_status result (lit "result")) ;;
  if truthy ok then
    print LStartOk
  else
    comment <- eval (request_status result (lit "comment")) ;;
    print (LStartFailed comment).

(** [stop_streaming(self)]. *)
Definition stop_streaming : M unit :=
  send_json (request (lit "StopStream") (lit "stop-stream")) ;;;
  result <- recv_json ;;
  ok <- eval (request_status result (lit "result")) ;;
  if truthy ok then
    print LStopOk
  else
    comment <- eval (request_status result (lit "comment")) ;;
    print (LStopFailed comment).

(** [get_stream_status(self)]. *)
Definition get_stream_status : M unit :=
  send_json (request (lit "GetStreamStatus") (lit "get-stream-status")) ;;;
  result <- recv_json ;;
  ok <- eval (request_status result (lit "result")) ;;
  if truthy ok then
    d <- eval (getitem result (lit "d")) ;;
    status <- eval (getitem d (lit "responseData")) ;;
    active <- eval (getitem status (lit "outputActive")) ;;
    if truthy active then
      print LStreaming ;;;
      duration <- eval (getitem status (lit "outputDuration")) ;;
      print (LDuration duration) ;;;
      bytes <- eval (getitem status (lit "outputBytes")) ;;
      print (LBytesSent bytes)
    else
      print LNotStreaming
  else
    comment <- eval (request_status result (lit "comment")) ;;
    print (LStatusFailed comment).

(** The first statement of [schedule_stream]: the instant to wait for.
    [datetime.now()] is read three times for the date and once more for
    the comparison. *)
Definition target_time (decimal : Z -> option Z) (start_time : pystr)
  : M datetime :=
  match strptime_HM decimal start_time with
  | None => raise ValueError
  | Some parsed =>
      now_year <- now ;;
      now_month <- now ;;
      now_day <- now ;;
      match replace_date parsed (year now_year) (month now_month)
                         (day now_day) with
      | None => raise ValueError
      | Some target =>
          current <- now ;;
          if dt_le target current then
            match add_one_day target with
            | Some tomorrow => ret tomorrow
            | None => raise OverflowError
            end
          else ret target
      end
  end.

(** [schedule_stream(self, start_time, duration_minutes=None)]. *)
Definition schedule_stream (decimal : Z -> option Z) (start_time : pystr)
    (duration_minutes : option Z) : M unit :=
  try_except
    (target <- target_time decimal start_time ;;
     current <- now ;;
     print (LScheduledFor target) ;;;
     print (LWaiting target current) ;;;
     sleep (NapUntil target current) ;;;
     print LStartingScheduled ;;;
     start_streaming ;;;
     match duration_minutes with
     | Some minutes =>
         if minutes =? 0 then ret tt
         else
           print (LWillStop minutes) ;;;
           sleep (NapSeconds (minutes * 60)) ;;;
           print LStoppingScheduled ;;;
           stop_streaming
     | None => ret tt
     end)
    (fun e =>
       if is_ValueError e then Some (print LInvalidTimeFormat)
       else if is_Exception e then Some (print (LSchedulingError e))
       else None).

(** [disconnect(self)]. *)
Definition disconnect : M unit :=
  self <- get_self ;;
  match websocket self with
  | Some _ =>
      close ;;;
      print LDisconnected
  | None => ret tt
  end.

End OBS.

(* ------------------------------------------------------------------ *)
(** ** [obs-auto.py] *)

Module Auto.

(** [start_stream()]: the body runs on a controller of its own. *)
Definition start_stream (w : World) : outcome unit * state :=
  let controller :=
    OBS.__init__ (lit "localhost") 4455 (Some (lit "Oindia001")) in
  (ready <- OBS.connect ;;
   if ready : bool then
     try_finally OBS.start_streaming OBS.disconnect
   else ret tt) (controller, w).

(** [trigger_stream_start()]. *)
Definition trigger_stream_start (w : World) : outcome unit * state :=
  start_stream (with_stdout w (stdout w ++ [LTriggering])).

End Auto.

(* ------------------------------------------------------------------ *)
(** ** The vocabulary of the specification *)

Module Spec.

(** The token as the specification writes it:
    [base64(sha256(base64(sha256(UTF8(secret + salt))) + UTF8(challenge)))],
    the base64 text of the first digest joined with the UTF-8 text of the
    challenge.  [None] when an operand has no UTF-8 encoding. *)
Definition token (secret salt challenge : pystr) : option pystr :=
  match Codec.encode (secret ++ salt), Codec.encode challenge with
  | Some salted, Some challenge_text =>
      Some (Codec.b64encode
              (Codec.sha256
                 (Codec.b64encode (Codec.sha256 salted) ++ challenge_text)))
  | _, _ => None
  end.

(** The variant the specification rules out: the raw digest joined with
    the challenge. *)
Definition token_on_raw_digest (secret salt challenge : pystr)
  : option pystr :=
  match Codec.encode (secret ++ salt), Codec.encode challenge with
  | Some salted, Some challenge_text =>
      Some (Codec.b64encode
              (Codec.sha256 (Codec.sha256 salted ++ challenge_text)))
  | _, _ => None
  end.

Definition octet (b : Z) : Prop := 0 <= b < 256.

Definition ascii (c : Z) : Prop := 0 <= c < 128.

(** The session is ready for a command: the controller holds a
    connection and the connection is open. *)
Definition session_ready (self : OBSController) (w : World) : Prop :=
  websocket self = Some tt /\ sock w = Open.

(** The next [send] goes through. *)
Definition send_completes (w : World) : Prop :=
  match send_script w with
  | [] | Completes :: _ => True
  | _ => False
  end.

(** The world once [v] has gone out. *)
Definition delivered (w : World) (v : pyval) : World :=
  with_sent (with_send_script w (tl (send_script w))) (sent w ++ [v]).

(** The world after one command: the request went out, the reply was
    taken from the inbox, one line was printed. *)
Definition exchanged (w : World) (req : pyval) (rest : list incoming)
    (l : line) : World :=
  with_stdout (with_inbox (delivered w req) rest) (stdout w ++ [l]).

(** [reply["d"]["requestId"]]. *)
Definition request_id_of (reply : pyval) : outcome pyval :=
  match getitem reply (lit "d") with
  | Ret d => getitem d (lit "requestId")
  | r => r
  end.

(** The reply envelope with another [requestId], everything else kept. *)
Definition with_request_id (request_id : pyval) (reply : pyval) : pyval :=
  match reply with
  | PyDict r =>
      match dict_get (lit "d") r with
      | Some (PyDict d) =>
          PyDict (dict_set (lit "d")
                           (PyDict (dict_set (lit "requestId") request_id d))
                           r)
      | _ => reply
      end
  | _ => reply
  end.

(** The acknowledgement signals acceptance: it has an [op] equal to 2. *)
Definition accepts (ack : pyval) : bool :=
  match getitem ack (lit "op") with
  | Ret op => eq_int op 2
  | _ => false
  end.

(** No secret is configured: the password is [None] or empty. *)
Definition no_secret (self : OBSController) : Prop :=
  match password self with
  | Some (_ :: _) => False
  | _ => True
  end.

(** An operation of the transport completes or raises an [Exception];
    it neither blocks for ever nor is interrupted from outside. *)
Definition io_orderly (o : io) : Prop :=
  match o with
  | Completes => True
  | Fails e => is_Exception e = true
  | Blocks => False
  end.

Definition incoming_orderly (i : incoming) : Prop :=
  match i with
  | Msg _ => True
  | Fault e => is_Exception e = true
  end.

(** The handshake meets an orderly transport: every operation it gets
    to perform completes or raises an [Exception].  These are the
    dialling, the first receive and, when the Identify message could be
    built, its send and the second receive. *)
Definition orderly (self : OBSController) (w : World) : Prop :=
  match dial w with
  | Blocks => False
  | Fails e => is_Exception e = true
  | Completes =>
      match inbox w with
      | [] => False
      | Fault e :: _ => is_Exception e = true
      | Msg hello_data :: rest =>
          match fst (OBS.identify_message hello_data (self, w)) with
          | Ret _ =>
              match send_script w with
              | Blocks :: _ => False
              | Fails e :: _ => is_Exception e = true
              | _ =>
                  match rest with
                  | [] => False
                  | Fault e :: _ => is_Exception e = true
                  | Msg _ :: _ => True
                  end
              end
          | _ => True
          end
      end
  end.

(** The controller and its connection, leaving standard output aside. *)
Definition session (st : state)
  : OBSController * sock_status * list incoming * list io * list pyval :=
  (fst st, sock (snd st), inbox (snd st), send_script (snd st),
   sent (snd st)).






(** The state after the lines [ls] have been printed. *)
Definition printing (st : state) (ls : list line) : state :=
  fold_left (fun s l => snd (print l s)) ls st.

(** How the building of the Identify message ends: some lines are
    printed, all of them text of the program, and either the message is
    there or an [Exception] is raised; which of the two depends neither on
    the world nor on the connection held. *)
Definition identify_outcome (hello_data : pyval) (self : OBSController)
  : Prop :=
  exists (ls : list line) (r : outcome pyval),
    forallb encodes ls = true /\
    (forall ws w,
        OBS.identify_message hello_data (with_websocket self ws, w)
        = (r, printing (with_websocket self ws, w) ls)) /\
    match r with
    | Ret _ => True
    | Raise e => is_Exception e = true
    | Hang => False
    end.

(** The peer sent a greeting and then an accepting acknowledgement. *)
Definition accepted_by_second (w : World) : Prop :=
  match inbox w with
  | Msg _ :: Msg ack :: _ => accepts ack = true
  | _ => False
  end.

(** A computation that leaves the attributes of the controller alone. *)
Definition keeps_self {A} (m : M A) : Prop :=
  forall st, fst (snd (m st)) = fst st.

(** A computation that only adds to the sleeps taken. *)
Definition naps_grow {A} (m : M A) : Prop :=
  forall st, exists more, naps (snd (snd (m st))) = naps (snd st) ++ more.

End Spec.
Import Spec.

(* ------------------------------------------------------------------ *)
(** ** Concrete sessions *)

Module Examples.

Definition steady_clock (t : datetime) : nat -> datetime := fun _ => t.

(** Before [connect]: the peer will deliver [msgs]; the clock shows [t]. *)
Definition fresh_world (msgs : list incoming) (t : datetime) : World :=
  mkWorld Completes Unopened msgs [] [] (steady_clock t) 0 [] [].

(** With the connection open. *)
Definition live_world (msgs : list incoming) (t : datetime) : World :=
  with_sock (fresh_world msgs t) Open.

Definition controller (password : option pystr) : OBSController :=
  OBS.__init__ (lit "localhost") 4455 password.

Definition connected (password : option pystr) : OBSController :=
  with_websocket (controller password) (Some tt).

(** Sunday 2 November 2025, at 07:00 and at 09:00. *)
Definition sunday_0700 : datetime := DateTime 2025 11 2 7 0 0 0.
Definition sunday_0900 : datetime := DateTime 2025 11 2 9 0 0 0.



Definition challenge_c1_s1 : pydict :=
  [(lit "challenge", PyStr (lit "c1")); (lit "salt", PyStr (lit "s1"))].

Definition greeting_d_challenge : pydict :=
  [(lit "rpcVersion", PyInt 1);
   (lit "authentication", PyDict challenge_c1_s1)].

Definition greeting_challenge : pyval :=
  PyDict [(lit "op", PyInt 0); (lit "d", PyDict greeting_d_challenge)].

Definition greeting_open : pyval :=
  PyDict [(lit "op", PyInt 0); (lit "d", PyDict [(lit "rpcVersion", PyInt 1)])].

Definition identified : pyval :=
  PyDict [(lit "op", PyInt 2);
          (lit "d", PyDict [(lit "negotiatedRpcVersion", PyInt 1)])].

(** An [op] other than 2 where the acknowledgement is expected. *)
Definition not_identified : pyval :=
  PyDict [(lit "op", PyInt 5); (lit "d", PyDict [])].

Definition response (request_type request_id : pystr) (status : pydict)
  : pyval :=
  PyDict [(lit "op", PyInt 7);
          (lit "d", PyDict [(lit "requestType", PyStr request_type);
                            (lit "requestId", PyStr request_id);
                            (lit "requestStatus", PyDict status)])].

Definition status_ok : pydict :=
  [(lit "result", PyBool true); (lit "code", PyInt 100)].


Definition reply_ok : pyval :=
  response (lit "StartStream") (lit "start-stream") status_ok.

(** A successful reply that echoes another request id. *)
Definition reply_mismatched : pyval :=
  response (lit "StopStream") (lit "stop-stream") status_ok.





(** The token for secret "pw", salt "s1" and challenge "c1". *)
Definition token_pw_s1_c1 : pystr :=
  lit "pYd4sosyRsEuVWHjDq0+fEXiKzQ4q6ptBMaOhDbZP7M=".

End Examples.

(* ------------------------------------------------------------------ *)
(** ** [obs_live.py]: [main] *)

Module Main.

(** The [choices] of the positional argument. *)
Inductive choice : Type :=
| start
| stop
| status
| schedule.

(** What [parser.parse_args()] returns. *)
Record Namespace : Type := mkNamespace {
  action : choice;
  host : pystr;
  port : Z;
  password : option pystr;
  time : option pystr;
  duration : option Z
}.

(** How [main] ends.  The line "--time required for schedule action" is
    not among the lines of the controller: [time_required] records that it
    was printed, and after how many lines of standard output. *)
Record ending : Type := mkEnding {
  result : outcome unit;
  final : state;
  time_required : option nat
}.

(** [not args.time]. *)
Definition no_time (args : Namespace) : bool :=
  match time args with
  | Some (_ :: _) => false
  | _ => true
  end.

(** The body of the [try] statement of [main]; the [return] of the
    branch without [--time] ends it normally. *)
Definition dispatch (decimal : Z -> option Z) (args : Namespace) : M unit :=
  match action args with
  | start => OBS.start_streaming
  | stop => OBS.stop_streaming
  | status => OBS.get_stream_status
  | schedule =>
      match time args with
      | Some (c :: s) =>
          OBS.schedule_stream decimal (c :: s) (duration args)
      | _ => ret tt
      end
  end.

(** [main()], from the parsed arguments on. *)
Definition main (decimal : Z -> option Z) (args : Namespace) (w : World)
  : ending :=
  let controller := OBS.__init__ (host args) (port args) (password args) in
  match OBS.connect (controller, w) with
  | (Ret true, st) =>
      let (r, st') := try_finally (dispatch decimal args) OBS.disconnect st in
      mkEnding r st'
               (match action args with
                | schedule =>
                    if no_time args
                    then Some (List.length (stdout (snd st)))
                    else None
                | _ => None
                end)
  | (Ret false, st) => mkEnding (Ret tt) st None
  | (Raise e, st) => mkEnding (Raise e) st None
  | (Hang, st) => mkEnding Hang st None
  end.

End Main.

(* ------------------------------------------------------------------ *)
(** ** More vocabulary *)

Module Frame.

(** A computation that leaves an aspect [f] of the state as it was. *)
Definition preserves {A X} (f : state -> X) (m : M A) : Prop :=
  forall st, f (snd (m st)) = f st.

(** A computation that never raises an [Exception]: what it raises, if
    anything, is an interrupt from outside that hierarchy. *)
Definition no_exception {A} (m : M A) : Prop :=
  forall st e st', m st = (Raise e, st') -> is_Exception e = false.

(** An exception handler that always returns. *)
Definition returns {A} (m : M A) : Prop :=
  forall st, exists a st', m st = (Ret a, st').

(** A computation that sends nothing or the one value [v]. *)
Definition sends_at_most {A} (v : pyval) (m : M A) : Prop :=
  forall st,
    sent (snd (snd (m st))) = sent (snd st) \/
    sent (snd (snd (m st))) = sent (snd st) ++ [v].

(** A computation that takes at most one message from the inbox. *)
Definition receives_at_most_one {A} (m : M A) : Prop :=
  forall st,
    inbox (snd (snd (m st))) = inbox (snd st) \/
    inbox (snd (snd (m st))) = tl (inbox (snd st)).

(** What a command leaves alone: the controller, the state of the
    connection, the clock and the sleeps. *)
Definition surroundings (st : state)
  : OBSController * sock_status * nat * list nap :=
  (fst st, sock (snd st), reads (snd st), naps (snd st)).

(** The connection as the controller sees it. *)
Definition connection (st : state) : option unit * sock_status :=
  (websocket (fst st), sock (snd st)).

(** Every [send] completes. *)
Definition sends_complete (w : World) : Prop :=
  Forall (fun o => o = Completes) (send_script w).

(** The world when the scheduled wait is over: four readings were made
    for the target, the reading numbered [k] told how long to sleep. *)
Definition after_wait (w : World) (k : nat) (target : datetime) : World :=
  mkWorld (dial w) (sock w) (inbox w) (send_script w) (sent w) (clock w)
          (S k)
          (naps w ++ [NapUntil target (clock w k)])
          (stdout w ++ [LScheduledFor target; LWaiting target (clock w k);
                        LStartingScheduled]).

(** The world when the stream has run for its duration. *)
Definition after_pause (w : World) (minutes : Z) : World :=
  mkWorld (dial w) (sock w) (inbox w) (send_script w) (sent w) (clock w)
          (reads w)
          (naps w ++ [NapSeconds (minutes * 60)])
          (stdout w ++ [LWillStop minutes; LStoppingScheduled]).

End Frame.
Import Frame.

Module MoreExamples.

Import Examples.

Definition status_no_comment : pydict :=
  [(lit "result", PyBool false); (lit "code", PyInt 500)].

Definition reply_no_comment : pyval :=
  response (lit "StartStream") (lit "start-stream") status_no_comment.


(** An active stream reported without its duration. *)
Definition stream_active_bare : pydict :=
  [(lit "outputActive", PyBool true)].




(** A world in which the connection is refused. *)
Definition refused_world : World :=
  mkWorld (Fails ConnectionRefusedError) Unopened [] [] []
          (steady_clock sunday_0900) 0 [] [].

Definition stream_idle : pydict :=
  [(lit "outputActive", PyBool false)].

Definition status_reply (data : pydict) : pyval :=
  PyDict [(lit "op", PyInt 7);
          (lit "d", PyDict [(lit "requestType", PyStr (lit "GetStreamStatus"));
                            (lit "requestId", PyStr (lit "get-stream-status"));
                            (lit "requestStatus", PyDict status_ok);
                            (lit "responseData", PyDict data)])].

Definition reply_stopped : pyval :=
  response (lit "StopStream") (lit "stop-stream") status_ok.

Definition cli (a : Main.choice) (t : option pystr) (d : option Z)
  : Main.Namespace :=
  Main.mkNamespace a (lit "localhost") 4455 None t d.

End MoreExamples.

(* ------------------------------------------------------------------ *)
(** ** Properties of the codecs *)

Section CodecFacts.

Lemma utf8_char_ascii c : ascii c -> Codec.utf8_char c = Some [c].
Proof.
  unfold ascii, Codec.utf8_char. intros [H0 H1].
  destruct (Z.ltb_spec c 0); [lia|].
  destruct (Z.ltb_spec c 128); [reflexivity|lia].
Qed.

Lemma encode_ascii s : Forall ascii s -> Codec.encode s = Some s.
Proof.
  induction 1 as [|c s Hc _ IH]; simpl; [reflexivity|].
  now rewrite (utf8_char_ascii c Hc), IH.
Qed.

Lemma encode_app a b :
  Codec.encode (a ++ b) =
  match Codec.encode a, Codec.encode b with
  | Some x, Some y => Some (x ++ y)
  | _, _ => None
  end.
Proof.
  induction a as [|c a IH]; simpl.
  - now destruct (Codec.encode b).
  - rewrite IH. destruct (Codec.utf8_char c) as [x|]; [|reflexivity].
    destruct (Codec.encode a) as [xs|]; [|reflexivity].
    destruct (Codec.encode b) as [ys|]; [|reflexivity].
    now rewrite app_assoc.
Qed.

Lemma decode_ascii b : Forall ascii b -> Codec.decode b = Some b.
Proof.
  induction 1 as [|c b Hc _ IH]; [reflexivity|].
  unfold ascii in Hc. cbn [Codec.decode].
  destruct (Z.leb_spec 0 c); [|lia].
  destruct (Z.ltb_spec c 128); [|lia].
  cbn [andb]. now rewrite IH.
Qed.

Lemma be_bytes_octets n x : Forall octet (Codec.be_bytes n x).
Proof.
  revert x. induction n as [|n IH]; intro x; simpl; [constructor|].
  apply Forall_app. split; [apply IH|].
  constructor; [|constructor].
  unfold octet. change 255 with (Z.ones 8).
  rewrite Z.land_ones by lia. apply Z.mod_pos_bound. lia.
Qed.

Lemma sha256_octets m : Forall octet (Codec.sha256 m).
Proof.
  unfold Codec.sha256.
  generalize (Codec.sha_blocks
                (Nat.div (List.length (Codec.sha_pad m)) 64)
                Codec.sha_init (Codec.sha_pad m)).
  intro l. induction l as [|x l IH]; cbn [flat_map]; [constructor|].
  apply Forall_app. split; [apply be_bytes_octets|exact IH].
Qed.

Lemma lor_below n x y :
  0 <= n -> 0 <= x < 2 ^ n -> 0 <= y < 2 ^ n -> 0 <= Z.lor x y < 2 ^ n.
Proof.
  intros Hn [Hx0 Hx] [Hy0 Hy]. split; [now apply Z.lor_nonneg|].
  destruct (Z.eq_dec x 0) as [->|Hxn]; [now rewrite Z.lor_0_l|].
  destruct (Z.eq_dec y 0) as [->|Hyn]; [now rewrite Z.lor_0_r|].
  assert (0 < Z.lor x y).
  { assert (0 <= Z.lor x y) by now apply Z.lor_nonneg.
    assert (Z.lor x y <> 0) by (rewrite Z.lor_eq_0_iff; lia). lia. }
  apply Z.log2_lt_pow2; [assumption|].
  rewrite Z.log2_lor by assumption.
  apply Z.max_lub_lt; apply Z.log2_lt_pow2; lia.
Qed.

Lemma b64_char_ascii i : 0 <= i < 64 -> ascii (Codec.b64_char i).
Proof.
  unfold ascii, Codec.b64_char. intros [H0 H1].
  destruct (Z.ltb_spec i 26); [lia|].
  destruct (Z.ltb_spec i 52); [lia|].
  destruct (Z.ltb_spec i 62); [lia|].
  destruct (Z.eqb_spec i 62); lia.
Qed.

Lemma sextet_high a : octet a -> 0 <= Z.shiftr a 2 < 64.
Proof.
  unfold octet. intro H. rewrite Z.shiftr_div_pow2 by lia.
  change (2 ^ 2) with 4. split.
  - apply Z.div_pos; lia.
  - apply Z.div_lt_upper_bound; lia.
Qed.

Lemma sextet_low c : 0 <= Z.land c 63 < 64.
Proof.
  change 63 with (Z.ones 6). rewrite Z.land_ones by lia.
  apply Z.mod_pos_bound. reflexivity.
Qed.

Lemma sextet_a a : 0 <= Z.shiftl (Z.land a 3) 4 < 64.
Proof.
  change 3 with (Z.ones 2). rewrite Z.land_ones by lia.
  rewrite Z.shiftl_mul_pow2 by lia.
  pose proof (Z.mod_pos_bound a (2 ^ 2) eq_refl).
  change (2 ^ 2) with 4 in *. change (2 ^ 4) with 16. lia.
Qed.

Lemma sextet_b b : 0 <= Z.shiftl (Z.land b 15) 2 < 64.
Proof.
  change 15 with (Z.ones 4). rewrite Z.land_ones by lia.
  rewrite Z.shiftl_mul_pow2 by lia.
  pose proof (Z.mod_pos_bound b (2 ^ 4) eq_refl).
  change (2 ^ 4) with 16 in *. change (2 ^ 2) with 4. lia.
Qed.

Lemma nibble_high b : octet b -> 0 <= Z.shiftr b 4 < 64.
Proof.
  unfold octet. intro H. rewrite Z.shiftr_div_pow2 by lia.
  change (2 ^ 4) with 16. split.
  - apply Z.div_pos; lia.
  - apply Z.div_lt_upper_bound; lia.
Qed.

Lemma pair_high c : octet c -> 0 <= Z.shiftr c 6 < 64.
Proof.
  unfold octet. intro H. rewrite Z.shiftr_div_pow2 by lia.
  change (2 ^ 6) with 64. split.
  - apply Z.div_pos; lia.
  - apply Z.div_lt_upper_bound; lia.
Qed.

Lemma b64encode_ascii_upto n :
  forall bs, (List.length bs <= n)%nat ->
             Forall octet bs -> Forall ascii (Codec.b64encode bs).
Proof.
  assert (Hpad : ascii Codec.pad_char) by (unfold ascii, Codec.pad_char; lia).
  induction n as [|n IH]; intros bs Hlen Hbs.
  - destruct bs; [constructor|simpl in Hlen; lia].
  - destruct bs as [|a [|b [|c rest]]]; cbn [Codec.b64encode].
    + constructor.
    + inversion_clear Hbs as [|? ? Ha _].
      repeat apply Forall_cons; try apply Forall_nil; try exact Hpad;
        apply b64_char_ascii.
      * now apply sextet_high.
      * apply sextet_a.
    + inversion_clear Hbs as [|? ? Ha Hr]. inversion_clear Hr as [|? ? Hb _].
      repeat apply Forall_cons; try apply Forall_nil; try exact Hpad;
        apply b64_char_ascii.
      * now apply sextet_high.
      * apply (lor_below 6); [lia|apply sextet_a|now apply nibble_high].
      * apply sextet_b.
    + inversion_clear Hbs as [|? ? Ha Hr]. inversion_clear Hr as [|? ? Hb Hr'].
      inversion_clear Hr' as [|? ? Hc Hrest].
      apply Forall_cons; [apply b64_char_ascii; now apply sextet_high|].
      apply Forall_cons;
        [apply b64_char_ascii, (lor_below 6);
         [lia|apply sextet_a|now apply nibble_high]|].
      apply Forall_cons;
        [apply b64_char_ascii, (lor_below 6);
         [lia|apply sextet_b|now apply pair_high]|].
      apply Forall_cons; [apply b64_char_ascii, sextet_low|].
      apply IH; [simpl in Hlen; lia|assumption].
Qed.

Lemma b64encode_ascii bs :
  Forall octet bs -> Forall ascii (Codec.b64encode bs).
Proof. apply (b64encode_ascii_upto (List.length bs)). lia. Qed.

(** The base64 text of a digest is ASCII: decoding it gives its own
    characters, and encoding those gives the same octets back. *)
Lemma digest_text_ascii m :
  Forall ascii (Codec.b64encode (Codec.sha256 m)).
Proof. apply b64encode_ascii, sha256_octets. Qed.

End CodecFacts.

(* ------------------------------------------------------------------ *)
(** ** The token of the Identify message *)

(** C1.  When the greeting carries a challenge and a non-empty secret is
    configured, [_send_identify] hands to [send] the Identify message whose
    [authentication] field is the token of the specification,
    [base64(sha256(base64(sha256(UTF8(secret + salt))) + UTF8(challenge)))],
    the base64 text being joined with the challenge as text; when the
    secret, the salt or the challenge has no UTF-8 encoding it raises
    [UnicodeEncodeError] instead and hands nothing to [send]. *)
Theorem identify_token_matches_spec :
  forall (self : OBSController) (w : World) (hello_data : pyval)
         (d auth_data : pydict) (secret salt challenge : pystr),
    password self = Some secret -> secret <> [] ->
    getitem hello_data (lit "d") = Ret (PyDict d) ->
    dict_get (lit "authentication") d = Some (PyDict auth_data) ->
    dict_get (lit "challenge") auth_data = Some (PyStr challenge) ->
    dict_get (lit "salt") auth_data = Some (PyStr salt) ->
    OBS._send_identify hello_data (self, w) =
    match Spec.token secret salt challenge with
    | Some token =>
        send_json
          (PyDict [(lit "op", PyInt 1);
                   (lit "d", PyDict [(lit "rpcVersion", PyInt 1);
                                     (lit "authentication", PyStr token)])])
          (self, with_stdout w (stdout w ++ [LAuthIncluded]))
    | None => (Raise UnicodeEncodeError, (self, w))
    end.
Proof.
  intros self w hello d auth secret salt challenge Hpw Hne Hd Hauth Hch Hsalt.
  unfold OBS._send_identify, OBS.identify_message, bind, eval, get_self,
    Spec.token.
  rewrite Hd. unfold contains, getitem at 1 2. rewrite Hauth.
  unfold getitem. rewrite Hch, Hsalt. cbn [fst snd]. rewrite Hpw.
  destruct secret as [|c p]; [congruence|].
  unfold str_add, str_encode.
  destruct (Codec.encode ((c :: p) ++ salt)) as [salted|]; [|reflexivity].
  unfold bytes_decode.
  rewrite (decode_ascii _ (digest_text_ascii salted)).
  rewrite encode_app, (encode_ascii _ (digest_text_ascii salted)).
  destruct (Codec.encode challenge) as [ct|]; [|reflexivity].
  rewrite (decode_ascii _ (digest_text_ascii _)).
  reflexivity.
Qed.

(* ------------------------------------------------------------------ *)
(** ** Dictionaries and reply envelopes *)

Section DictFacts.

Lemma str_eqb_eq a b : str_eqb a b = true <-> a = b.
Proof.
  revert b. induction a as [|x a IH]; intros [|y b]; simpl;
    try (split; [discriminate|congruence]); [tauto|].
  rewrite andb_true_iff, Z.eqb_eq, IH. split.
  - now intros [-> ->].
  - intro H. now inversion H.
Qed.

Lemma str_eqb_refl a : str_eqb a a = true.
Proof. now apply str_eqb_eq. Qed.

Lemma dict_get_set_same k v d : dict_get k (dict_set k v d) = Some v.
Proof.
  induction d as [|[k' v'] d IH]; simpl.
  - now rewrite str_eqb_refl.
  - destruct (str_eqb k k') eqn:E; simpl; now rewrite E.
Qed.

Lemma dict_get_set_other k k' v d :
  str_eqb k' k = false -> dict_get k' (dict_set k v d) = dict_get k' d.
Proof.
  intro Hne. induction d as [|[k0 v0] d IH]; simpl.
  - now rewrite Hne.
  - destruct (str_eqb k k0) eqn:E; simpl.
    + apply str_eqb_eq in E. subst k0. now rewrite Hne.
    + now rewrite IH.
Qed.

End DictFacts.

Section ReplyFacts.

Variables (request_id reply : pyval).

Lemma with_request_id_field k :
  str_eqb k (lit "requestId") = false ->
  match getitem (with_request_id request_id reply) (lit "d") with
  | Ret d => getitem d k
  | r => r
  end =
  match getitem reply (lit "d") with
  | Ret d => getitem d k
  | r => r
  end.
Proof.
  intro Hk. unfold with_request_id.
  destruct reply as [| | | | | |r]; try reflexivity.
  destruct (dict_get (lit "d") r) as [[| | | | | |d]|] eqn:Hd; try reflexivity.
  unfold getitem at 1 3. rewrite dict_get_set_same, Hd.
  unfold getitem. now rewrite dict_get_set_other.
Qed.

Lemma with_request_id_status field :
  OBS.request_status (with_request_id request_id reply) field =
  OBS.request_status reply field.
Proof.
  unfold OBS.request_status.
  pose proof (with_request_id_field (lit "requestStatus") eq_refl) as H.
  destruct (getitem (with_request_id request_id reply) (lit "d")) as [d1| |];
    destruct (getitem reply (lit "d")) as [d2| |];
    try discriminate; try (now rewrite H); try reflexivity;
    try (now rewrite <- H); try congruence.
Qed.

End ReplyFacts.

Section Exchange.

Variables (self : OBSController) (w : World).
Hypothesis Hready : session_ready self w.

Lemma send_json_delivered v :
  send_completes w -> send_json v (self, w) = (Ret tt, (self, delivered w v)).
Proof.
  destruct Hready as [Hws Hsock]. unfold send_completes, send_json, delivered.
  cbn [fst snd]. rewrite Hws, Hsock.
  destruct (send_script w) as [|[| |] rest]; intro H; try contradiction;
    reflexivity.
Qed.

Lemma recv_json_msg v rest :
  inbox w = Msg v :: rest ->
  recv_json (self, w) = (Ret v, (self, with_inbox w rest)).
Proof.
  destruct Hready as [Hws Hsock]. unfold recv_json. cbn [fst snd].
  now rewrite Hws, Hsock; intros ->.
Qed.

End Exchange.

Lemma ready_delivered self w v :
  session_ready self w -> session_ready self (delivered w v).
Proof. now intros [? ?]. Qed.

Lemma ready_with_inbox self w i :
  session_ready self w -> session_ready self (with_inbox w i).
Proof. now intros [? ?]. Qed.

(** A command up to the point where the reply is in hand. *)
Lemma command_exchange self w req reply rest (k : pyval -> M unit) :
  session_ready self w -> send_completes w -> inbox w = Msg reply :: rest ->
  (send_json req ;;; result <- recv_json ;; k result) (self, w) =
  k reply (self, with_inbox (delivered w req) rest).
Proof.
  intros Hr Hs Hi. unfold bind.
  rewrite (send_json_delivered self w Hr req Hs).
  rewrite (recv_json_msg self (delivered w req) (ready_delivered _ _ _ Hr)
             reply rest Hi).
  reflexivity.
Qed.

Lemma responseData_unchanged request_id reply (k : pyval -> M unit) st :
  (d <- eval (getitem (with_request_id request_id reply) (lit "d")) ;;
   status <- eval (getitem d (lit "responseData")) ;; k status) st =
  (d <- eval (getitem reply (lit "d")) ;;
   status <- eval (getitem d (lit "responseData")) ;; k status) st.
Proof.
  unfold bind, eval.
  pose proof (with_request_id_field request_id reply (lit "responseData")
                eq_refl) as H.
  destruct (getitem (with_request_id request_id reply) (lit "d")) as [d1| |];
    destruct (getitem reply (lit "d")) as [d2| |];
    try discriminate; try (now rewrite H); try reflexivity;
    try (now rewrite <- H); try congruence.
Qed.

Lemma bind_eval {A B} (r : outcome A) (k : A -> M B) st :
  bind (eval r) k st =
  match r with
  | Ret a => k a st
  | Raise e => (Raise e, st)
  | Hang => (Hang, st)
  end.
Proof. unfold bind, eval. now destruct r. Qed.

(* ------------------------------------------------------------------ *)
(** ** Commands *)

(** C2, as amended.  The [requestId] of the reply is not examined: for
    each of the three commands, a reply whose [requestId] was replaced by
    any other value gives the same outcome and the same final state as the
    original reply. *)
Theorem request_id_not_examined :
  forall (self : OBSController) (w : World) (reply request_id : pyval)
         (rest : list incoming),
    session_ready self w -> send_completes w ->
    inbox w = Msg reply :: rest ->
    let w' := with_inbox w (Msg (with_request_id request_id reply) :: rest) in
    OBS.start_streaming (self, w') = OBS.start_streaming (self, w) /\
    OBS.stop_streaming (self, w') = OBS.stop_streaming (self, w) /\
    OBS.get_stream_status (self, w') = OBS.get_stream_status (self, w).
Proof.
  intros self w reply rid rest Hr Hs Hi w'.
  assert (Hr' : session_ready self w') by now apply ready_with_inbox.
  assert (Hi' : inbox w' = Msg (with_request_id rid reply) :: rest)
    by reflexivity.
  assert (Hw : forall req,
             with_inbox (delivered w' req) rest
             = with_inbox (delivered w req) rest) by reflexivity.
  unfold OBS.start_streaming, OBS.stop_streaming, OBS.get_stream_status.
  rewrite !(command_exchange self w' _ _ rest _ Hr' Hs Hi').
  rewrite !(command_exchange self w _ _ rest _ Hr Hs Hi).
  rewrite !Hw, !with_request_id_status.
  repeat split.
  etransitivity; [apply bind_eval|].
  symmetry. etransitivity; [apply bind_eval|]. symmetry.
  destruct (OBS.request_status reply (lit "result")) as [ok| |];
    try reflexivity.
  destruct (truthy ok); [|reflexivity].
  apply responseData_unchanged.
Qed.

Lemma with_request_id_sets request_id r d :
  dict_get (lit "d") r = Some (PyDict d) ->
  request_id_of (with_request_id request_id (PyDict r)) = Ret request_id.
Proof.
  intro Hd. unfold with_request_id, request_id_of. rewrite Hd.
  unfold getitem. now rewrite !dict_get_set_same.
Qed.


(* ------------------------------------------------------------------ *)
(** ** The handshake *)

Ltac split_scrutinee :=
  match goal with
  | |- context [match ?x with _ => _ end] =>
      lazymatch x with
      | context [match _ with _ => _ end] => fail
      | _ => destruct x eqn:?
      end
  end.

Ltac identify_leaf ls :=
  first
    [ refine (ex_intro _ ls (ex_intro _ (Ret _) (conj eq_refl (conj _ I))));
      intros ? ?; reflexivity
    | refine (ex_intro _ ls
                (ex_intro _ (Raise _) (conj eq_refl (conj _ _))));
      [intros ? ?; reflexivity | reflexivity] ].

Lemma identify_message_outcome hello self : identify_outcome hello self.
Proof.
  unfold identify_outcome, OBS.identify_message, bind, eval, get_self,
    raise, ret, print, str_add, str_encode, bytes_decode, getitem, contains.
  repeat (cbn [encodes fst snd password with_websocket]; split_scrutinee);
    first [ identify_leaf (@nil line)
          | identify_leaf [LNoAuthRequired]
          | identify_leaf [LAuthIncluded]
          | identify_leaf [LAuthRequired] ].
Qed.

Lemma printing_frame st ls :
  fst (printing st ls) = fst st /\
  sock (snd (printing st ls)) = sock (snd st) /\
  inbox (snd (printing st ls)) = inbox (snd st) /\
  send_script (snd (printing st ls)) = send_script (snd st) /\
  sent (snd (printing st ls)) = sent (snd st).
Proof.
  revert st. induction ls as [|l ls IH]; intro st; [now cbn|].
  cbn [printing fold_left]. destruct (IH (snd (print l st))) as (a & b & c & d & e).
  unfold printing in *. rewrite a, b, c, d, e.
  unfold print. now destruct (encodes l).
Qed.

Lemma with_websocket_same self : with_websocket self (websocket self) = self.
Proof. now destruct self. Qed.

(** What the handshake gives on an orderly transport. *)
Lemma connect_result self w :
  orderly self w ->
  exists b st,
    OBS.connect (self, w) = (Ret b, st) /\
    (b = true -> dial w = Completes /\ accepted_by_second w).
Proof.
  intro Ho. unfold OBS.connect.
  match goal with
  | |- context [try_except ?b ?h _] => set (body := b); set (handler := h)
  end.
  assert (Hbody :
            match body (self, w) with
            | (Ret b, _) =>
                b = true -> dial w = Completes /\ accepted_by_second w
            | (Raise e, _) => is_Exception e = true
            | (Hang, _) => False
            end).
  { unfold orderly in Ho.
    unfold body, bind at 1, websockets_connect. cbn [fst snd].
    destruct (dial w) as [|e|] eqn:Ed; try assumption.
    unfold bind at 1, get_self. unfold bind at 1, set_self.
    unfold bind at 1, print at 1. unfold bind at 1, recv_json at 1.
    cbn [encodes fst snd websocket with_websocket sock with_stdout with_sock inbox].
    unfold accepted_by_second.
    destruct (inbox w) as [|[hello|e] rest]; try contradiction;
      try assumption.
    unfold bind at 1, print at 1. cbn [encodes fst snd].
    unfold bind at 1, OBS._send_identify, bind at 1.
    destruct (identify_message_outcome hello self)
      as (ls & r & _ & Hid & Hr).
    rewrite (Hid (Some tt)).
    pose proof (Hid (websocket self) w) as Hself.
    rewrite with_websocket_same in Hself. rewrite Hself in Ho.
    cbn [fst] in Ho.
    match goal with
    | |- context [printing ?s ls] =>
        destruct (printing_frame s ls) as (F1 & F2 & F3 & F4 & _);
        destruct (printing s ls) as [c1 w1]
    end.
    cbn [fst snd sock inbox send_script with_stdout with_inbox with_sock]
      in F1, F2, F3, F4.
    destruct r as [message|e|]; [|exact Hr|contradiction].
    subst c1. unfold send_json. cbn [fst snd]. rewrite F2, F4.
    cbn [websocket with_websocket].
    assert (Hrecv : forall w2,
               sock w2 = Open -> inbox w2 = rest ->
               match rest with
               | [] => False
               | Msg _ :: _ => True
               | Fault e :: _ => is_Exception e = true
               end ->
               match
                 (let (o, st') :=
                    recv_json (with_websocket self (Some tt), w2) in
                  match o with
                  | Ret identified_data =>
                      (op <- eval (getitem identified_data (lit "op")) ;;
                       if eq_int op 2
                       then print LIdentified ;;; ret true
                       else print (LIdentifyFailed identified_data) ;;;
                            ret false) st'
                  | Raise e => (Raise e, st')
                  | Hang => (Hang, st')
                  end)
               with
               | (Ret b, _) =>
                   b = true ->
                   Completes = Completes /\
                   match rest with
                   | Msg ack :: _ => accepts ack = true
                   | _ => False
                   end
               | (Raise e, _) => is_Exception e = true
               | (Hang, _) => False
               end).
    { intros w2 Hs2 Hi2 Hrest. unfold recv_json. cbn [fst snd].
      rewrite Hs2, Hi2. cbn [websocket with_websocket].
      destruct rest as [|[ack|e] rest']; try contradiction;
        [|exact Hrest].
      rewrite bind_eval. unfold accepts.
      destruct (getitem ack (lit "op")) as [op|e|] eqn:Eop.
      - destruct (eq_int op 2) eqn:E2; cbn; [now split|discriminate].
      - destruct ack as [| | | | | |d]; unfold getitem in Eop;
          try (now inversion Eop).
        destruct (dict_get (lit "op") d); now inversion Eop.
      - destruct ack as [| | | | | |d]; unfold getitem in Eop;
          try discriminate.
        destruct (dict_get (lit "op") d); discriminate. }
    destruct (send_script w) as [|[|e|] script];
      try assumption; try contradiction;
      unfold bind at 1; apply Hrecv; assumption. }
  unfold try_except.
  destruct (body (self, w)) as [[b|e|] st']; [now eauto| |contradiction].
  unfold handler. rewrite Hbody.
  destruct (is_ConnectionRefusedError e); eexists _, _; split;
    try reflexivity; discriminate.
Qed.

(* ------------------------------------------------------------------ *)
(** ** Scheduling *)

Section Calendar.









End Calendar.


(* ------------------------------------------------------------------ *)
(** ** The handshake: theorems *)

(** C4.  When the greeting carries an authentication challenge and no
    secret is configured, [_send_identify] raises the exception
    "Authentication required but no password provided" without sending
    anything, and [connect] returns [False]: only the connection line, the
    greeting line and the two lines about the missing password were
    printed, the greeting was taken from the inbox, and no Identify message
    went out. *)
Theorem auth_required_without_secret :
  forall (self : OBSController) (w : World) (hello_data : pyval)
         (d : pydict) (auth_data challenge salt : pyval)
         (rest : list incoming),
    no_secret self ->
    dial w = Completes ->
    inbox w = Msg hello_data :: rest ->
    getitem hello_data (lit "d") = Ret (PyDict d) ->
    dict_get (lit "authentication") d = Some auth_data ->
    getitem auth_data (lit "challenge") = Ret challenge ->
    getitem auth_data (lit "salt") = Ret salt ->
    (forall st,
        fst st = self ->
        OBS._send_identify hello_data st
        = (Raise (PlainException OBS.auth_required_message),
           printing st [LAuthRequired])) /\
    OBS.connect (self, w)
    = (Ret false,
       (with_websocket self (Some tt),
        with_stdout
          (with_inbox (with_sock w Open) rest)
          (stdout w ++
           [LConnected (host self) (port self); LReceivedHello;
            LAuthRequired;
            LConnectionError
              (PlainException OBS.auth_required_message)]))) /\
    sent (snd (snd (OBS.connect (self, w)))) = sent w.
Proof.
  intros self w hello d auth challenge salt rest Hno Hdial Hin Hd Hauth
         Hch Hsalt.
  assert (Hid : forall st,
             password (fst st) = password self ->
             OBS._send_identify hello st
             = (Raise (PlainException OBS.auth_required_message),
                printing st [LAuthRequired])).
  { intros [c v] Hpw. cbn [fst] in Hpw.
    assert (Hc : contains (lit "authentication") (PyDict d) = Ret true)
      by (unfold contains; now rewrite Hauth).
    assert (Ha : getitem (PyDict d) (lit "authentication") = Ret auth)
      by (unfold getitem; now rewrite Hauth).
    unfold OBS._send_identify, OBS.identify_message, bind, eval, get_self.
    rewrite Hd. cbv beta iota. rewrite Hc. cbv beta iota.
    rewrite Ha. cbv beta iota. rewrite Hch. cbv beta iota.
    rewrite Hsalt. cbv beta iota. cbn [fst snd]. rewrite Hpw.
    unfold no_secret in Hno.
    destruct (password self) as [[|x p]|]; try contradiction; reflexivity. }
  assert (Hconnect :
            OBS.connect (self, w)
            = (Ret false,
               (with_websocket self (Some tt),
                with_stdout
                  (with_inbox (with_sock w Open) rest)
                  (stdout w ++
                   [LConnected (host self) (port self); LReceivedHello;
                    LAuthRequired;
                    LConnectionError
                      (PlainException OBS.auth_required_message)])))).
  { unfold OBS.connect, try_except.
    unfold bind at 1, websockets_connect. cbn [fst snd]. rewrite Hdial.
    unfold bind at 1, get_self. unfold bind at 1, set_self.
    unfold bind at 1, print at 1. unfold bind at 1, recv_json at 1.
    cbn [encodes fst snd websocket with_websocket sock with_stdout with_sock inbox].
    rewrite Hin. unfold bind at 1, print at 1. cbn [encodes fst snd].
    unfold bind at 1. rewrite Hid by reflexivity.
    cbn. unfold with_stdout. cbn. now rewrite <- !app_assoc. }
  split; [|split].
  - intros st <-. now apply Hid.
  - exact Hconnect.
  - now rewrite Hconnect.
Qed.

(** C7.  When the message received after the Identify is not an
    acknowledgement with [op == 2], [connect] returns [False]. *)
Theorem rejected_acknowledgement_fails :
  forall (self : OBSController) (w : World) (hello_data ack : pyval)
         (rest : list incoming),
    dial w = Completes ->
    inbox w = Msg hello_data :: Msg ack :: rest ->
    match send_script w with
    | [] => True
    | o :: _ => io_orderly o
    end ->
    accepts ack = false ->
    exists st, OBS.connect (self, w) = (Ret false, st).
Proof.
  intros self w hello ack rest Hdial Hin Hsend Hack.
  destruct (connect_result self w) as (b & st & Hc & Hb).
  { unfold orderly. rewrite Hdial, Hin.
    destruct (fst (OBS.identify_message hello (self, w))); try exact I.
    destruct (send_script w) as [|[|e|] script]; cbn in Hsend;
      try contradiction; try assumption; exact I. }
  destruct b; [|now exists st].
  destruct (Hb eq_refl) as [_ Ha]. unfold accepted_by_second in Ha.
  rewrite Hin in Ha. congruence.
Qed.

(** C10.  On a transport whose operations complete or raise an
    [Exception], [connect] returns a boolean, whatever the peer sends; it
    returns [True] only when the connection was made and the second
    message received is an acknowledgement with [op == 2]. *)
Theorem connect_returns_boolean :
  forall (self : OBSController) (w : World),
    orderly self w ->
    exists (b : bool) (st : state),
      OBS.connect (self, w) = (Ret b, st) /\
      (b = true ->
       dial w = Completes /\
       exists hello_data ack rest,
         inbox w = Msg hello_data :: Msg ack :: rest /\
         accepts ack = true).
Proof.
  intros self w Ho.
  destruct (connect_result self w Ho) as (b & st & Hc & Hb).
  exists b, st. split; [exact Hc|].
  intro Ht. destruct (Hb Ht) as [Hd Ha]. split; [exact Hd|].
  unfold accepted_by_second in Ha.
  destruct (inbox w) as [|[hello|] [|[ack|] rest]]; try contradiction.
  now exists hello, ack, rest.
Qed.

(* ------------------------------------------------------------------ *)
(** ** Releasing the session *)

Section KeepsSelf.

Lemma keeps_bind {A B} (m : M A) (k : A -> M B) :
  keeps_self m -> (forall a, keeps_self (k a)) -> keeps_self (bind m k).
Proof.
  intros Hm Hk st. unfold bind. specialize (Hm st).
  destruct (m st) as [[a|e|] st1]; cbn [fst snd] in *; try assumption.
  now rewrite Hk.
Qed.

Lemma keeps_eval {A} (r : outcome A) : keeps_self (eval r).
Proof. now intro. Qed.

Lemma keeps_print l : keeps_self (print l).
Proof. intro st. unfold print. now destruct (encodes l). Qed.

Lemma keeps_send v : keeps_self (send_json v).
Proof.
  intro st. unfold send_json.
  destruct (websocket (fst st)); [|reflexivity].
  destruct (sock (snd st)); try reflexivity.
  now destruct (send_script (snd st)) as [|[| |] ?].
Qed.

Lemma keeps_recv : keeps_self recv_json.
Proof.
  intro st. unfold recv_json.
  destruct (websocket (fst st)); [|reflexivity].
  destruct (sock (snd st)); try reflexivity.
  now destruct (inbox (snd st)) as [|[|] ?].
Qed.

Lemma keeps_get_self : keeps_self get_self.
Proof. now intro. Qed.

Lemma keeps_ret {A} (a : A) : keeps_self (ret a).
Proof. now intro. Qed.

Lemma keeps_raise {A} e : keeps_self (@raise A e).
Proof. now intro. Qed.

End KeepsSelf.

Ltac keeps_step :=
  first
    [ apply keeps_bind; [|intros ?]
    | apply keeps_eval | apply keeps_print | apply keeps_send
    | apply keeps_recv | apply keeps_get_self | apply keeps_ret
    | apply keeps_raise
    | match goal with
      | |- keeps_self (match ?x with _ => _ end) => destruct x
      end ].

Lemma keeps_start_streaming : keeps_self OBS.start_streaming.
Proof. unfold OBS.start_streaming. repeat keeps_step. Qed.

(** After a [connect] that returned [True] the controller holds its
    connection. *)
Lemma connect_true_holds_connection self w st :
  OBS.connect (self, w) = (Ret true, st) -> websocket (fst st) = Some tt.
Proof.
  unfold OBS.connect.
  match goal with
  | |- context [try_except ?b ?h _] => set (body := b); set (handler := h)
  end.
  assert (Hbody : forall b st',
             body (self, w) = (Ret b, st') -> websocket (fst st') = Some tt).
  { unfold body, bind at 1, websockets_connect. cbn [fst snd].
    destruct (dial w); try discriminate.
    unfold bind at 1, get_self. unfold bind at 1, set_self.
    cbn [fst snd].
    match goal with
    | |- forall b st', ?m ?s = _ -> _ =>
        assert (Hk : keeps_self m) by repeat keeps_step;
        intros b st' Hm; specialize (Hk s); rewrite Hm in Hk;
        cbn [fst snd] in Hk; now rewrite Hk
    end. }
  unfold try_except.
  destruct (body (self, w)) as [[b|e|] st'] eqn:Eb.
  - intros [= -> <-]. now apply (Hbody true).
  - unfold handler.
    destruct (is_ConnectionRefusedError e); [discriminate|].
    destruct (is_Exception e); discriminate.
  - discriminate.
Qed.

Lemma disconnect_unfold self w :
  OBS.disconnect (self, w)
  = (Ret tt,
     match websocket self with
     | Some _ =>
         (self,
          with_stdout (with_sock w Closed) (stdout w ++ [LDisconnected]))
     | None => (self, w)
     end).
Proof.
  unfold OBS.disconnect, bind, get_self, close, print. cbn [fst snd].
  destruct (websocket self) as [[]|] eqn:Ews; cbn [fst snd];
    rewrite ?Ews; reflexivity.
Qed.

(** C8.  [disconnect] returns normally from every state.  On a
    controller that never obtained a connection it changes nothing at
    all.  A second call returns normally as well and leaves the controller
    and its connection exactly as the first call left them; when a
    connection was held it is closed after the first call already. *)
Theorem disconnect_idempotent :
  forall st : state,
    exists st1 st2,
      OBS.disconnect st = (Ret tt, st1) /\
      OBS.disconnect st1 = (Ret tt, st2) /\
      session st2 = session st1 /\
      (websocket (fst st) = None -> st1 = st /\ st2 = st) /\
      (websocket (fst st) <> None -> sock (snd st1) = Closed).
Proof.
  intros [self w]. rewrite disconnect_unfold. cbn [fst snd].
  destruct (websocket self) as [[]|] eqn:Ews.
  - eexists _, _. split; [reflexivity|].
    rewrite disconnect_unfold, Ews.
    split; [reflexivity|]. split; [reflexivity|].
    split; [discriminate|reflexivity].
  - eexists _, _. split; [reflexivity|].
    rewrite disconnect_unfold, Ews.
    split; [reflexivity|]. split; [reflexivity|].
    split; [now split|]. intro H. now elim H.
Qed.

(** C9.  The trigger calls [start_streaming] only when [connect]
    returned [True]: otherwise it ends where [connect] ended.  When
    [connect] returned [True] and [start_streaming] returns or raises, the
    connection is closed before the trigger ends, and what
    [start_streaming] raised is raised again. *)
Theorem trigger_releases_session :
  forall w : World,
    let controller :=
      OBS.__init__ (lit "localhost") 4455 (Some (lit "Oindia001")) in
    match OBS.connect (controller, w) with
    | (Ret true, st) =>
        match OBS.start_streaming st with
        | (Hang, st') => Auto.start_stream w = (Hang, st')
        | (r, st') =>
            Auto.start_stream w
            = (r, (fst st',
                   with_stdout (with_sock (snd st') Closed)
                               (stdout (snd st') ++ [LDisconnected])))
        end
    | (Ret false, st) => Auto.start_stream w = (Ret tt, st)
    | (Raise e, st) => Auto.start_stream w = (Raise e, st)
    | (Hang, st) => Auto.start_stream w = (Hang, st)
    end.
Proof.
  intros w controller. unfold Auto.start_stream. fold controller.
  unfold bind.
  destruct (OBS.connect (controller, w)) as [[[|]|e|] st] eqn:Ec;
    try reflexivity.
  pose proof (connect_true_holds_connection _ _ _ Ec) as Hws.
  unfold try_finally.
  pose proof (keeps_start_streaming st) as Hk.
  destruct (OBS.start_streaming st) as [r st'].
  cbn [fst snd] in Hk.
  assert (Hd : OBS.disconnect st'
               = (Ret tt,
                  (fst st',
                   with_stdout (with_sock (snd st') Closed)
                               (stdout (snd st') ++ [LDisconnected])))).
  { destruct st' as [c' w']. cbn [fst snd] in *.
    rewrite disconnect_unfold, Hk, Hws. reflexivity. }
  destruct r as [[]|e|]; rewrite ?Hd; reflexivity.
Qed.

(* ------------------------------------------------------------------ *)
(** ** Scheduling: theorems *)

Section NapsGrow.









Lemma grow_try_except {A} (m : M A) handler :
  naps_grow m ->
  (forall e h, handler e = Some h -> naps_grow h) ->
  naps_grow (try_except m handler).
Proof.
  intros Hm Hh st. unfold try_except. destruct (Hm st) as [more1 H1].
  destruct (m st) as [[a|e|] st1]; cbn [fst snd] in *;
    try (now exists more1).
  destruct (handler e) as [h|] eqn:Eh; [|now exists more1].
  destruct (Hh e h Eh st1) as [more2 H2]. exists (more1 ++ more2).
  now rewrite H2, H1, app_assoc.
Qed.

End NapsGrow.






(** C6, as amended.  For a time string that does not parse,
    [schedule_stream] prints the line about the invalid time format and
    returns [None]; nothing is raised, nothing is sent, the clock is not
    read and no sleep is taken. *)
Theorem invalid_time_is_reported :
  forall (decimal : Z -> option Z) (start_time : pystr)
         (duration_minutes : option Z) (self : OBSController) (w : World),
    strptime_HM decimal start_time = None ->
    OBS.schedule_stream decimal start_time duration_minutes (self, w)
    = (Ret tt, (self, with_stdout w (stdout w ++ [LInvalidTimeFormat]))).
Proof.
  intros decimal s duration self w Hparse.
  unfold OBS.schedule_stream, try_except, bind at 1, OBS.target_time.
  now rewrite Hparse.
Qed.

(* ------------------------------------------------------------------ *)
(** ** The properties on concrete sessions *)

Section Concrete.

Import Examples.

(** The digest of "abc", from FIPS 180-4, and the first and last round
    constants. *)
Example sha256_abc :
  Codec.sha256 (lit "abc")
  = [0xba; 0x78; 0x16; 0xbf; 0x8f; 0x01; 0xcf; 0xea;
     0x41; 0x41; 0x40; 0xde; 0x5d; 0xae; 0x22; 0x23;
     0xb0; 0x03; 0x61; 0xa3; 0x96; 0x17; 0x7a; 0x9c;
     0xb4; 0x10; 0xff; 0x61; 0xf2; 0x00; 0x15; 0xad] /\
  hd 0 Codec.K256 = 0x428a2f98 /\
  last Codec.K256 0 = 0xc67178f2 /\
  List.length Codec.K256 = 64%nat.
Proof. vm_compute. repeat split; reflexivity. Qed.

(** The test vector of the specification: secret "pw", salt "s1",
    challenge "c1". *)
Example token_vector :
  Spec.token (lit "pw") (lit "s1") (lit "c1") = Some token_pw_s1_c1.
Proof. vm_compute. reflexivity. Qed.

(** Joining the raw digest with the challenge gives another token. *)
Example token_on_raw_digest_differs :
  Spec.token_on_raw_digest (lit "pw") (lit "s1") (lit "c1")
  <> Spec.token (lit "pw") (lit "s1") (lit "c1").
Proof. vm_compute. discriminate. Qed.

(** The end-to-end scenario of the specification: challenge "c1", salt
    "s1", secret "pw", then an acknowledgement with [op = 2]; the
    Identify message carries the token and [connect] returns [True]; a
    [start_streaming] that follows sends the request and reports
    success. *)
Example handshake_then_start :
  let w := fresh_world [Msg greeting_challenge; Msg identified;
                        Msg reply_ok] sunday_0900 in
  let after_connect := OBS.connect (controller (Some (lit "pw")), w) in
  let after_start := OBS.start_streaming (snd after_connect) in
  fst after_connect = Ret true /\
  sent (snd (snd after_connect)) = [OBS.identify_with token_pw_s1_c1] /\
  fst after_start = Ret tt /\
  sent (snd (snd after_start))
  = [OBS.identify_with token_pw_s1_c1;
     OBS.request (lit "StartStream") (lit "start-stream")] /\
  stdout (snd (snd after_start))
  = [LConnected (lit "localhost") 4455; LReceivedHello; LAuthIncluded;
     LIdentified; LStartOk].
Proof. vm_compute. repeat split; reflexivity. Qed.

(** A greeting without challenge: the Identify message has no token. *)
Example handshake_without_challenge :
  let w := fresh_world [Msg greeting_open; Msg identified] sunday_0900 in
  fst (OBS.connect (controller None, w)) = Ret true /\
  sent (snd (snd (OBS.connect (controller None, w)))) = [OBS.identify_plain].
Proof. vm_compute. split; reflexivity. Qed.

Lemma identify_token_witness :
  OBS._send_identify greeting_challenge
    (connected (Some (lit "pw")), live_world [] sunday_0900)
  = match Spec.token (lit "pw") (lit "s1") (lit "c1") with
    | Some token =>
        send_json
          (PyDict [(lit "op", PyInt 1);
                   (lit "d", PyDict [(lit "rpcVersion", PyInt 1);
                                     (lit "authentication", PyStr token)])])
          (connected (Some (lit "pw")),
           with_stdout (live_world [] sunday_0900) [LAuthIncluded])
    | None =>
        (Raise UnicodeEncodeError,
         (connected (Some (lit "pw")), live_world [] sunday_0900))
    end.
Proof.
  apply (identify_token_matches_spec
           (connected (Some (lit "pw"))) (live_world [] sunday_0900)
           greeting_challenge greeting_d_challenge challenge_c1_s1
           (lit "pw") (lit "s1") (lit "c1"));
    first [reflexivity | discriminate].
Defined.

(** C2, the claim as stated fails: a successful reply that echoes the
    request id "stop-stream" where "start-stream" was sent makes
    [start_streaming] return normally and report success. *)
Lemma mismatched_reply_is_accepted :
  let st := (connected None, live_world [Msg reply_mismatched] sunday_0900) in
  request_id_of reply_mismatched = Ret (PyStr (lit "stop-stream")) /\
  OBS.start_streaming st
  = (Ret tt,
     (connected None,
      exchanged (live_world [Msg reply_mismatched] sunday_0900)
                (OBS.request (lit "StartStream") (lit "start-stream"))
                [] LStartOk)) /\
  ~ (exists e, fst (OBS.start_streaming st) = Raise e).
Proof.
  split; [reflexivity|]. split; [reflexivity|].
  intros [e He]. discriminate He.
Qed.

Lemma request_id_not_examined_witness :
  let w := live_world [Msg reply_ok] sunday_0900 in
  let w' :=
    with_inbox w [Msg (with_request_id (PyStr (lit "stop-stream")) reply_ok)] in
  request_id_of (with_request_id (PyStr (lit "stop-stream")) reply_ok)
  = Ret (PyStr (lit "stop-stream")) /\
  OBS.start_streaming (connected None, w')
  = OBS.start_streaming (connected None, w) /\
  OBS.stop_streaming (connected None, w')
  = OBS.stop_streaming (connected None, w) /\
  OBS.get_stream_status (connected None, w')
  = OBS.get_stream_status (connected None, w).
Proof.
  split; [reflexivity|].
  apply (request_id_not_examined
           (connected None) (live_world [Msg reply_ok] sunday_0900)
           reply_ok (PyStr (lit "stop-stream")) []).
  - split; reflexivity.
  - exact I.
  - reflexivity.
Defined.



Lemma auth_required_witness :
  let w := fresh_world [Msg greeting_challenge] sunday_0900 in
  fst (OBS.connect (controller None, w)) = Ret false /\
  sent (snd (snd (OBS.connect (controller None, w)))) = [].
Proof.
  destruct (auth_required_without_secret
              (controller None)
              (fresh_world [Msg greeting_challenge] sunday_0900)
              greeting_challenge greeting_d_challenge
              (PyDict challenge_c1_s1) (PyStr (lit "c1")) (PyStr (lit "s1"))
              [] I eq_refl eq_refl eq_refl eq_refl eq_refl eq_refl)
    as (_ & Hc & Hs).
  split; [now rewrite Hc|exact Hs].
Defined.

(** The scenario of the specification: "08:30" asked at 09:00 is for the
    following day, asked at 07:00 for the same day. *)
Example schedule_0830 :
  fst (OBS.target_time ascii_decimal (lit "08:30")
         (connected None, live_world [] sunday_0900))
  = Ret (DateTime 2025 11 3 8 30 0 0) /\
  fst (OBS.target_time ascii_decimal (lit "08:30")
         (connected None, live_world [] sunday_0700))
  = Ret (DateTime 2025 11 2 8 30 0 0).
Proof. split; reflexivity. Qed.



(** C6, the claim as stated fails: "25:99" does not parse, and
    [schedule_stream] returns [None] without raising. *)
Lemma invalid_time_returns_none :
  let st := (connected None, live_world [] sunday_0900) in
  strptime_HM ascii_decimal (lit "25:99") = None /\
  fst (OBS.schedule_stream ascii_decimal (lit "25:99") None st) = Ret tt /\
  ~ (exists e,
        fst (OBS.schedule_stream ascii_decimal (lit "25:99") None st)
        = Raise e).
Proof.
  split; [reflexivity|]. split; [reflexivity|].
  intros [e He]. discriminate He.
Qed.

Lemma invalid_time_witness :
  OBS.schedule_stream ascii_decimal (lit "25:99") (Some 30)
    (connected None, live_world [] sunday_0900)
  = (Ret tt,
     (connected None,
      with_stdout (live_world [] sunday_0900) [LInvalidTimeFormat])).
Proof.
  apply (invalid_time_is_reported
           ascii_decimal (lit "25:99") (Some 30) (connected None)
           (live_world [] sunday_0900)).
  reflexivity.
Defined.

(** The behaviours the handshake is expected to survive are orderly, and
    [connect] returns [False] on each: a refused connection, a greeting
    that is not JSON, a greeting without its fields, a challenge without
    a configured secret after which the peer stays silent, a rejection. *)
Example listed_behaviours :
  let refused :=
    mkWorld (Fails ConnectionRefusedError) Unopened [] [] []
            (steady_clock sunday_0900) 0 [] [] in
  let not_json := fresh_world [Fault JSONDecodeError] sunday_0900 in
  let no_fields := fresh_world [Msg (PyDict [])] sunday_0900 in
  let challenged := fresh_world [Msg greeting_challenge] sunday_0900 in
  let rejected :=
    fresh_world [Msg greeting_open; Msg not_identified] sunday_0900 in
  Forall (fun w => orderly (controller None) w /\
                   fst (OBS.connect (controller None, w)) = Ret false)
         [refused; not_json; no_fields; challenged; rejected].
Proof.
  intros refused not_json no_fields challenged rejected.
  repeat apply Forall_cons; try apply Forall_nil;
    (split; vm_compute; first [exact I | reflexivity]).
Qed.

Lemma rejected_acknowledgement_witness :
  exists st,
    OBS.connect
      (controller None,
       fresh_world [Msg greeting_open; Msg not_identified] sunday_0900)
    = (Ret false, st).
Proof.
  apply (rejected_acknowledgement_fails
           (controller None)
           (fresh_world [Msg greeting_open; Msg not_identified] sunday_0900)
           greeting_open not_identified []).
  - reflexivity.
  - reflexivity.
  - exact I.
  - reflexivity.
Defined.

Lemma connect_returns_boolean_witness :
  exists (b : bool) (st : state),
    OBS.connect
      (controller None,
       fresh_world [Msg greeting_open; Msg identified] sunday_0900)
    = (Ret b, st) /\
    (b = true ->
     dial (fresh_world [Msg greeting_open; Msg identified] sunday_0900)
     = Completes /\
     exists hello_data ack rest,
       inbox (fresh_world [Msg greeting_open; Msg identified] sunday_0900)
       = Msg hello_data :: Msg ack :: rest /\
       accepts ack = true).
Proof.
  apply (connect_returns_boolean
           (controller None)
           (fresh_world [Msg greeting_open; Msg identified] sunday_0900)).
  vm_compute. exact I.
Defined.

End Concrete.

(* ------------------------------------------------------------------ *)
(** ** More on the handshake *)

Lemma printing_eq c w ls :
  forallb encodes ls = true ->
  printing (c, w) ls = (c, with_stdout w (stdout w ++ ls)).
Proof.
  revert w. induction ls as [|l ls IH]; intros w Hls.
  - destruct w. cbn. now rewrite app_nil_r.
  - cbn [forallb] in Hls. apply andb_true_iff in Hls. destruct Hls as [Hl Hls].
    cbn [printing fold_left]. fold (printing (snd (print l (c, w))) ls).
    unfold print. rewrite Hl. cbn [fst snd]. rewrite (IH _ Hls).
    cbn [stdout with_stdout].
    unfold with_stdout. cbn. now rewrite <- app_assoc.
Qed.

(** The Identify message without and with a token. *)
Lemma identify_message_plain self w hello d :
  getitem hello (lit "d") = Ret (PyDict d) ->
  dict_get (lit "authentication") d = None ->
  OBS.identify_message hello (self, w)
  = (Ret OBS.identify_plain,
     (self, with_stdout w (stdout w ++ [LNoAuthRequired]))).
Proof.
  intros Hd Hauth.
  assert (Hc : contains (lit "authentication") (PyDict d) = Ret false)
    by (unfold contains; now rewrite Hauth).
  unfold OBS.identify_message, bind, eval.
  rewrite Hd. cbv beta iota. rewrite Hc. reflexivity.
Qed.

Lemma identify_message_token self w hello d auth secret salt challenge :
  password self = Some secret -> secret <> [] ->
  getitem hello (lit "d") = Ret (PyDict d) ->
  dict_get (lit "authentication") d = Some (PyDict auth) ->
  dict_get (lit "challenge") auth = Some (PyStr challenge) ->
  dict_get (lit "salt") auth = Some (PyStr salt) ->
  OBS.identify_message hello (self, w)
  = match Spec.token secret salt challenge with
    | Some token =>
        (Ret (OBS.identify_with token),
         (self, with_stdout w (stdout w ++ [LAuthIncluded])))
    | None => (Raise UnicodeEncodeError, (self, w))
    end.
Proof.
  intros Hpw Hne Hd Hauth Hch Hsalt.
  unfold OBS.identify_message, bind, eval, get_self, Spec.token.
  rewrite Hd. unfold contains, getitem at 1 2. rewrite Hauth.
  unfold getitem. rewrite Hch, Hsalt. cbn [fst snd]. rewrite Hpw.
  destruct secret as [|c p]; [congruence|].
  unfold str_add, str_encode.
  destruct (Codec.encode ((c :: p) ++ salt)) as [salted|]; [|reflexivity].
  unfold bytes_decode.
  rewrite (decode_ascii _ (digest_text_ascii salted)).
  rewrite encode_app, (encode_ascii _ (digest_text_ascii salted)).
  destruct (Codec.encode challenge) as [ct|]; [|reflexivity].
  rewrite (decode_ascii _ (digest_text_ascii _)).
  reflexivity.
Qed.

(** The handshake once the Identify message is built and goes out: the
    verdict is that of the acknowledgement. *)
Lemma connect_after_identify self w hello ack rest message :
  dial w = Completes ->
  inbox w = Msg hello :: Msg ack :: rest ->
  fst (OBS.identify_message hello (self, w)) = Ret message ->
  send_completes w ->
  fst (OBS.connect (self, w)) = Ret (accepts ack) /\
  sent (snd (snd (OBS.connect (self, w)))) = sent w ++ [message] /\
  inbox (snd (snd (OBS.connect (self, w)))) = rest /\
  connection (snd (OBS.connect (self, w))) = (Some tt, Open).
Proof.
  intros Hdial Hin Hmsg Hsend.
  destruct (identify_message_outcome hello self) as (ls & r & Hls & Hid & _).
  pose proof (Hid (websocket self) w) as Hself.
  rewrite with_websocket_same, (printing_eq _ _ _ Hls) in Hself.
  rewrite Hself in Hmsg. cbn [fst] in Hmsg. subst r.
  cut (exists st,
          OBS.connect (self, w) = (Ret (accepts ack), st) /\
          sent (snd st) = sent w ++ [message] /\
          inbox (snd st) = rest /\
          connection st = (Some tt, Open)).
  { intros (st & -> & H). exact (conj eq_refl H). }
  unfold OBS.connect, try_except.
  unfold bind at 1, websockets_connect. cbn [fst snd]. rewrite Hdial.
  unfold bind at 1, get_self. unfold bind at 1, set_self.
  unfold bind at 1, print at 1. unfold bind at 1, recv_json at 1.
  cbn [encodes fst snd websocket with_websocket sock with_stdout with_sock inbox].
  rewrite Hin. unfold bind at 1, print at 1. cbn [encodes fst snd].
  unfold bind at 1, OBS._send_identify, bind at 1.
  rewrite (Hid (Some tt)), (printing_eq _ _ _ Hls).
  match goal with
  | |- context [send_json message (?c, ?v)] =>
      rewrite (send_json_delivered c v (conj eq_refl eq_refl) message Hsend)
  end.
  unfold bind at 1, recv_json at 1.
  cbn [fst snd websocket with_websocket sock with_stdout with_sock inbox
         delivered with_sent with_send_script with_inbox].
  rewrite bind_eval. unfold accepts, connection.
  destruct (getitem ack (lit "op")) as [op|e|] eqn:Eop.
  - destruct (eq_int op 2); eexists; (split; [reflexivity|]);
      repeat split; reflexivity.
  - assert (He : is_Exception e = true /\ is_ConnectionRefusedError e = false).
    { destruct ack as [| | | | | |d]; unfold getitem in Eop;
        try (inversion Eop; now split).
      destruct (dict_get (lit "op") d); inversion Eop. now split. }
    destruct He as [He1 He2]. rewrite He2, He1.
    eexists; (split; [reflexivity|]); repeat split; reflexivity.
  - destruct ack as [| | | | | |d]; unfold getitem in Eop; try discriminate.
    destruct (dict_get (lit "op") d); discriminate.
Qed.

(** X1.  When the greeting's [d] is an object without an
    [authentication] member, [_send_identify] prints that no
    authentication is required and hands to [send] the Identify message
    [{"op": 1, "d": {"rpcVersion": 1}}], which has no [authentication]
    member, whether a password is configured or not. *)
Theorem identify_without_challenge :
  forall (self : OBSController) (w : World) (hello_data : pyval) (d : pydict),
    getitem hello_data (lit "d") = Ret (PyDict d) ->
    dict_get (lit "authentication") d = None ->
    OBS._send_identify hello_data (self, w)
    = send_json
        (PyDict [(lit "op", PyInt 1);
                 (lit "d", PyDict [(lit "rpcVersion", PyInt 1)])])
        (self, with_stdout w (stdout w ++ [LNoAuthRequired])).
Proof.
  intros self w hello d Hd Hauth. unfold OBS._send_identify, bind.
  now rewrite (identify_message_plain self w hello d Hd Hauth).
Qed.

(** X2.  Once the connection is made, the greeting received, the
    Identify message built and sent, [connect] returns exactly whether
    the next message has [op == 2]; the Identify message is the only
    frame sent, the two messages are taken from the inbox, and the
    connection is held open whatever the verdict. *)
Theorem connect_verdict :
  forall (self : OBSController) (w : World) (hello_data ack message : pyval)
         (rest : list incoming),
    dial w = Completes ->
    inbox w = Msg hello_data :: Msg ack :: rest ->
    fst (OBS.identify_message hello_data (self, w)) = Ret message ->
    send_completes w ->
    fst (OBS.connect (self, w)) = Ret (accepts ack) /\
    sent (snd (snd (OBS.connect (self, w)))) = sent w ++ [message] /\
    inbox (snd (snd (OBS.connect (self, w)))) = rest /\
    connection (snd (OBS.connect (self, w))) = (Some tt, Open).
Proof.
  intros self w hello ack message rest. apply connect_after_identify.
Qed.

(** X3.  The authenticated handshake end to end: with a non-empty
    password, a greeting carrying challenge and salt, and an
    acknowledgement with [op == 2], [connect] returns [True] having sent
    one frame, the Identify message whose [authentication] is the token
    derived from password, salt and challenge. *)
Theorem connect_authenticated :
  forall (self : OBSController) (w : World) (hello_data ack : pyval)
         (d auth_data : pydict) (secret salt challenge token : pystr)
         (rest : list incoming),
    password self = Some secret -> secret <> [] ->
    getitem hello_data (lit "d") = Ret (PyDict d) ->
    dict_get (lit "authentication") d = Some (PyDict auth_data) ->
    dict_get (lit "challenge") auth_data = Some (PyStr challenge) ->
    dict_get (lit "salt") auth_data = Some (PyStr salt) ->
    Spec.token secret salt challenge = Some token ->
    dial w = Completes ->
    inbox w = Msg hello_data :: Msg ack :: rest ->
    send_completes w ->
    accepts ack = true ->
    fst (OBS.connect (self, w)) = Ret true /\
    sent (snd (snd (OBS.connect (self, w))))
    = sent w ++
      [PyDict [(lit "op", PyInt 1);
               (lit "d", PyDict [(lit "rpcVersion", PyInt 1);
                                 (lit "authentication", PyStr token)])]].
Proof.
  intros self w hello ack d auth secret salt challenge token rest
         Hpw Hne Hd Hauth Hch Hsalt Htok Hdial Hin Hsend Hack.
  destruct (connect_after_identify self w hello ack rest
              (OBS.identify_with token) Hdial Hin) as (Hr & Hs & _).
  - rewrite (identify_message_token self w hello d auth secret salt
               challenge Hpw Hne Hd Hauth Hch Hsalt), Htok.
    reflexivity.
  - exact Hsend.
  - rewrite Hr, Hs, Hack. split; reflexivity.
Qed.

(** X4.  When [websockets.connect] raises an [Exception], [connect]
    returns [False] and changes nothing but standard output: the
    controller holds no new connection, nothing is received or sent.  A
    [ConnectionRefusedError] is reported by its own two lines, any other
    exception by the line "Connection error". *)
Theorem connect_dial_failure :
  forall (self : OBSController) (w : World) (e : exn),
    dial w = Fails e ->
    is_Exception e = true ->
    OBS.connect (self, w)
    = (Ret false,
       (self,
        with_stdout w
          (stdout w ++
           if is_ConnectionRefusedError e
           then [LCouldNotConnect; LMakeSureRunning]
           else [LConnectionError e]))).
Proof.
  intros self w e Hdial He.
  unfold OBS.connect, try_except, bind at 1, websockets_connect.
  cbn [fst snd]. rewrite Hdial, He.
  destruct (is_ConnectionRefusedError e); cbn; [|reflexivity].
  unfold with_stdout. cbn. now rewrite <- app_assoc.
Qed.

Section NoException.

Lemma try_except_no_exception {A} (body : M A) handler :
  (forall e, is_Exception e = true -> handler e <> None) ->
  (forall e h, handler e = Some h -> returns h) ->
  no_exception (try_except body handler).
Proof.
  intros Hall Hret st e st'. unfold try_except.
  destruct (body st) as [[a|e0|] st0]; try discriminate.
  destruct (handler e0) as [h|] eqn:Eh.
  - destruct (Hret e0 h Eh st0) as (a & s & ->). discriminate.
  - intros [= <- <-]. destruct (is_Exception e0) eqn:Ee; [|reflexivity].
    now elim (Hall e0 Ee).
Qed.

Lemma returns_print l : encodes l = true -> returns (print l).
Proof. intros Hl st. unfold print. rewrite Hl. now eexists _, _. Qed.

End NoException.

(** X5.  [connect] never raises an [Exception]: whatever the transport
    and the peer do, an exception that leaves [connect] is an interrupt
    from outside that hierarchy. *)
Theorem connect_raises_only_interrupts : no_exception OBS.connect.
Proof.
  unfold OBS.connect. apply try_except_no_exception.
  - intros e He. rewrite He. now destruct (is_ConnectionRefusedError e).
  - intros e h.
    destruct (is_ConnectionRefusedError e);
      [|destruct (is_Exception e); [|discriminate]];
      intros [= <-] st; now eexists _, _.
Qed.

Section Preserves.

Context {X : Type} (f : state -> X).

Lemma preserves_bind {A B} (m : M A) (k : A -> M B) :
  preserves f m -> (forall a, preserves f (k a)) -> preserves f (bind m k).
Proof.
  intros Hm Hk st. unfold bind. specialize (Hm st).
  destruct (m st) as [[a|e|] st1]; cbn [fst snd] in *; try assumption.
  now rewrite Hk.
Qed.

Lemma preserves_eval {A} (r : outcome A) : preserves f (eval r).
Proof. now intro. Qed.

Lemma preserves_ret {A} (a : A) : preserves f (ret a).
Proof. now intro. Qed.

Lemma preserves_raise {A} e : preserves f (@raise A e).
Proof. now intro. Qed.

Lemma preserves_get_self : preserves f get_self.
Proof. now intro. Qed.

Lemma preserves_try_except {A} (m : M A) handler :
  preserves f m ->
  (forall e h, handler e = Some h -> preserves f h) ->
  preserves f (try_except m handler).
Proof.
  intros Hm Hh st. unfold try_except. specialize (Hm st).
  destruct (m st) as [[a|e|] st1]; cbn [fst snd] in *; try assumption.
  destruct (handler e) as [h|] eqn:Eh; [|assumption].
  now rewrite (Hh e h Eh).
Qed.

End Preserves.

Lemma connection_print l : preserves connection (print l).
Proof. intro st. unfold print. now destruct (encodes l). Qed.

Lemma connection_send v : preserves connection (send_json v).
Proof.
  intro st. unfold send_json.
  destruct (websocket (fst st)); [|reflexivity].
  destruct (sock (snd st)); try reflexivity.
  now destruct (send_script (snd st)) as [|[| |] ?].
Qed.

Lemma connection_recv : preserves connection recv_json.
Proof.
  intro st. unfold recv_json.
  destruct (websocket (fst st)); [|reflexivity].
  destruct (sock (snd st)); try reflexivity.
  now destruct (inbox (snd st)) as [|[|] ?].
Qed.

Ltac connection_step :=
  first
    [ apply preserves_bind; [|intros ?]
    | apply preserves_eval | apply connection_print | apply connection_send
    | apply connection_recv | apply preserves_get_self | apply preserves_ret
    | apply preserves_raise
    | match goal with
      | |- preserves _ (match ?x with _ => _ end) => destruct x
      end ].

(** Once the connection is made, [connect] ends with the connection
    held and open, however it ends. *)
Lemma connect_keeps_connection self w :
  dial w = Completes ->
  connection (snd (OBS.connect (self, w))) = (Some tt, Open).
Proof.
  intro Hdial. unfold OBS.connect.
  match goal with
  | |- context [try_except ?b ?h _] => set (body := b); set (handler := h)
  end.
  assert (Hh : forall e h, handler e = Some h -> preserves connection h).
  { intros e h. unfold handler.
    destruct (is_ConnectionRefusedError e);
      [|destruct (is_Exception e); [|discriminate]];
      intros [= <-]; repeat connection_step. }
  assert (Hbody : connection (snd (body (self, w))) = (Some tt, Open)).
  { unfold body, bind at 1, websockets_connect. cbn [fst snd].
    rewrite Hdial. unfold bind at 1, get_self. unfold bind at 1, set_self.
    cbn [fst snd].
    match goal with
    | |- connection (snd (?m ?s)) = _ =>
        assert (Hk : preserves connection m) by repeat connection_step;
        now rewrite (Hk s)
    end. }
  unfold try_except.
  destruct (body (self, w)) as [[b|e|] st']; cbn [snd] in *; try assumption.
  destruct (handler e) as [h|] eqn:Eh; [|assumption].
  now rewrite (Hh e h Eh).
Qed.

(** X6.  A handshake that fails after the connection was made leaves the
    connection open: when [connect] returns [False] in [start_stream], the
    trigger returns at once, with the controller still holding an open
    connection that nothing closes. *)
Theorem failed_handshake_leaves_connection_open :
  forall w : World,
    let controller :=
      OBS.__init__ (lit "localhost") 4455 (Some (lit "Oindia001")) in
    dial w = Completes ->
    fst (OBS.connect (controller, w)) = Ret false ->
    Auto.start_stream w = (Ret tt, snd (OBS.connect (controller, w))) /\
    connection (snd (Auto.start_stream w)) = (Some tt, Open).
Proof.
  intros w controller Hdial Hfalse.
  pose proof (connect_keeps_connection controller w Hdial) as Hopen.
  unfold Auto.start_stream. fold controller. unfold bind.
  destruct (OBS.connect (controller, w)) as [r st]. cbn [fst snd] in *.
  subst r. now split.
Qed.

(* ------------------------------------------------------------------ *)
(** ** More on the commands *)

Ltac primitive_preserves :=
  let st := fresh "st" in
  intro st; unfold send_json, recv_json, print, sleep, now;
  try match goal with
      | |- context [encodes ?l] => destruct (encodes l)
      | |- context [delay_overflows ?n] => destruct (delay_overflows n)
      end;
  try reflexivity;
  destruct (websocket (fst st)); try reflexivity;
  destruct (sock (snd st)); try reflexivity;
  try (now destruct (send_script (snd st)) as [|[| |] ?]);
  try (now destruct (inbox (snd st)) as [|[|] ?]).

Ltac preserves_step :=
  first
    [ apply preserves_bind; [|intros ?]
    | apply preserves_eval | apply preserves_get_self | apply preserves_ret
    | apply preserves_raise
    | match goal with
      | |- preserves _ (match ?x with _ => _ end) => destruct x
      end
    | solve [primitive_preserves] ].

Lemma getitem_raises v k e :
  getitem v k = Raise e -> e = TypeError \/ exists key, e = KeyError key.
Proof.
  unfold getitem. destruct v as [| | | | | |d]; try (intros [= <-]; now left).
  destruct (dict_get k d); [discriminate|].
  intros [= <-]. right. now exists k.
Qed.

Lemma commands_unconnected self w :
  websocket self = None ->
  OBS.start_streaming (self, w) = (Raise AttributeError, (self, w)) /\
  OBS.stop_streaming (self, w) = (Raise AttributeError, (self, w)) /\
  OBS.get_stream_status (self, w) = (Raise AttributeError, (self, w)).
Proof.
  intro Hws.
  unfold OBS.start_streaming, OBS.stop_streaming, OBS.get_stream_status,
    bind, send_json.
  cbn [fst snd]. rewrite Hws. now repeat split.
Qed.

(** X7.  On a controller that never obtained a connection each command
    raises [AttributeError] at its first statement: nothing is sent,
    received or printed. *)
Theorem commands_need_connection :
  forall (self : OBSController) (w : World),
    websocket self = None ->
    OBS.start_streaming (self, w) = (Raise AttributeError, (self, w)) /\
    OBS.stop_streaming (self, w) = (Raise AttributeError, (self, w)) /\
    OBS.get_stream_status (self, w) = (Raise AttributeError, (self, w)).
Proof.
  intros self w. apply commands_unconnected.
Qed.

Lemma start_streaming_ok self w reply rest ok :
  session_ready self w -> send_completes w ->
  inbox w = Msg reply :: rest ->
  OBS.request_status reply (lit "result") = Ret ok ->
  truthy ok = true ->
  OBS.start_streaming (self, w) =
    (Ret tt,
     (self, exchanged w (OBS.request (lit "StartStream") (lit "start-stream"))
                      rest LStartOk)).
Proof.
  intros Hr Hs Hi Hok Htrue. unfold OBS.start_streaming.
  rewrite (command_exchange self w _ _ rest _ Hr Hs Hi).
  now rewrite bind_eval, Hok, Htrue.
Qed.

Lemma stop_streaming_ok self w reply rest ok :
  session_ready self w -> send_completes w ->
  inbox w = Msg reply :: rest ->
  OBS.request_status reply (lit "result") = Ret ok ->
  truthy ok = true ->
  OBS.stop_streaming (self, w) =
    (Ret tt,
     (self, exchanged w (OBS.request (lit "StopStream") (lit "stop-stream"))
                      rest LStopOk)).
Proof.
  intros Hr Hs Hi Hok Htrue. unfold OBS.stop_streaming.
  rewrite (command_exchange self w _ _ rest _ Hr Hs Hi).
  now rewrite bind_eval, Hok, Htrue.
Qed.

(** X8.  When the reply has a truthy [requestStatus.result],
    [start_streaming] and [stop_streaming] send their one request, take the
    reply, print the success line and return; no comment is looked up. *)
Theorem command_success :
  forall (self : OBSController) (w : World) (reply : pyval)
         (rest : list incoming) (status_result : pyval),
    session_ready self w -> send_completes w ->
    inbox w = Msg reply :: rest ->
    OBS.request_status reply (lit "result") = Ret status_result ->
    truthy status_result = true ->
    OBS.start_streaming (self, w) =
      (Ret tt,
       (self, exchanged w (OBS.request (lit "StartStream") (lit "start-stream"))
                        rest LStartOk)) /\
    OBS.stop_streaming (self, w) =
      (Ret tt,
       (self, exchanged w (OBS.request (lit "StopStream") (lit "stop-stream"))
                        rest LStopOk)).
Proof.
  intros self w reply rest ok Hr Hs Hi Hok Htrue. split.
  - now apply (start_streaming_ok self w reply rest ok).
  - now apply (stop_streaming_ok self w reply rest ok).
Qed.

(** X9.  When the reply lacks [d], [requestStatus] or [result], or one of
    them is not an object, each command raises the [KeyError] or
    [TypeError] of the failed subscript to its caller: the request has
    been sent and the reply taken, and nothing is printed. *)
Theorem command_malformed_reply :
  forall (self : OBSController) (w : World) (reply : pyval)
         (rest : list incoming) (e : exn),
    session_ready self w -> send_completes w ->
    inbox w = Msg reply :: rest ->
    OBS.request_status reply (lit "result") = Raise e ->
    (e = TypeError \/ exists key, e = KeyError key) /\
    OBS.start_streaming (self, w)
    = (Raise e,
       (self,
        with_inbox
          (delivered w (OBS.request (lit "StartStream") (lit "start-stream")))
          rest)) /\
    OBS.stop_streaming (self, w)
    = (Raise e,
       (self,
        with_inbox
          (delivered w (OBS.request (lit "StopStream") (lit "stop-stream")))
          rest)) /\
    OBS.get_stream_status (self, w)
    = (Raise e,
       (self,
        with_inbox
          (delivered w (OBS.request (lit "GetStreamStatus")
                                    (lit "get-stream-status")))
          rest)).
Proof.
  intros self w reply rest e Hr Hs Hi He. split.
  { unfold OBS.request_status in He.
    destruct (getitem reply (lit "d")) as [d|e1|] eqn:E1;
      [|inversion He; subst; apply (getitem_raises _ _ _ E1)|discriminate].
    destruct (getitem d (lit "requestStatus")) as [status|e2|] eqn:E2;
      [|inversion He; subst; apply (getitem_raises _ _ _ E2)|discriminate].
    apply (getitem_raises _ _ _ He). }
  unfold OBS.start_streaming, OBS.stop_streaming, OBS.get_stream_status.
  rewrite !(command_exchange self w _ _ rest _ Hr Hs Hi).
  rewrite !bind_eval, He. now repeat split.
Qed.

(** X10.  When the reply reports failure and has no [comment], each
    command raises the [KeyError] of the lookup made for the failure line:
    the failure line is not printed. *)
Theorem failure_without_comment :
  forall (self : OBSController) (w : World) (reply : pyval)
         (rest : list incoming) (status_result : pyval) (e : exn),
    session_ready self w -> send_completes w ->
    inbox w = Msg reply :: rest ->
    OBS.request_status reply (lit "result") = Ret status_result ->
    truthy status_result = false ->
    OBS.request_status reply (lit "comment") = Raise e ->
    e = KeyError (lit "comment") /\
    (forall command,
        In command [OBS.start_streaming; OBS.stop_streaming;
                    OBS.get_stream_status] ->
        fst (command (self, w)) = Raise e /\
        stdout (snd (snd (command (self, w)))) = stdout w).
Proof.
  intros self w reply rest ok e Hr Hs Hi Hok Hfalse Hc. split.
  { unfold OBS.request_status in Hok, Hc.
    destruct (getitem reply (lit "d")) as [d| |]; try discriminate.
    destruct (getitem d (lit "requestStatus")) as [status| |];
      try discriminate.
    unfold getitem in Hok, Hc.
    destruct status as [| | | | | |s]; try discriminate.
    destruct (dict_get (lit "comment") s); now inversion Hc. }
  intros command Hin.
  assert (Hrun : forall req failed ok_branch,
             (send_json req ;;;
              result <- recv_json ;;
              ok <- eval (OBS.request_status result (lit "result")) ;;
              if truthy ok then ok_branch result
              else comment <-
                     eval (OBS.request_status result (lit "comment")) ;;
                   print (failed comment)) (self, w)
             = (Raise e, (self, with_inbox (delivered w req) rest))).
  { intros req failed ok_branch.
    rewrite (command_exchange self w _ _ rest _ Hr Hs Hi).
    now rewrite bind_eval, Hok, Hfalse, bind_eval, Hc. }
  destruct Hin as [<-|[<-|[<-|[]]]].
  - unfold OBS.start_streaming.
    rewrite (Hrun _ LStartFailed (fun _ => print LStartOk)). now split.
  - unfold OBS.stop_streaming.
    rewrite (Hrun _ LStopFailed (fun _ => print LStopOk)). now split.
  - unfold OBS.get_stream_status.
    rewrite (Hrun _ LStatusFailed
               (fun result =>
                  d <- eval (getitem result (lit "d")) ;;
                  status <- eval (getitem d (lit "responseData")) ;;
                  active <- eval (getitem status (lit "outputActive")) ;;
                  if truthy active then
                    print LStreaming ;;;
                    duration <- eval (getitem status (lit "outputDuration")) ;;
                    print (LDuration duration) ;;;
                    bytes <- eval (getitem status (lit "outputBytes")) ;;
                    print (LBytesSent bytes)
                  else print LNotStreaming)).
    now split.
Qed.

(** The status query up to the point where the response data is in
    hand. *)
Lemma status_exchange self w reply rest ok d data :
  session_ready self w -> send_completes w ->
  inbox w = Msg reply :: rest ->
  OBS.request_status reply (lit "result") = Ret ok ->
  truthy ok = true ->
  getitem reply (lit "d") = Ret d ->
  getitem d (lit "responseData") = Ret data ->
  OBS.get_stream_status (self, w)
  = (active <- eval (getitem data (lit "outputActive")) ;;
     if truthy active then
       print LStreaming ;;;
       duration <- eval (getitem data (lit "outputDuration")) ;;
       print (LDuration duration) ;;;
       bytes <- eval (getitem data (lit "outputBytes")) ;;
       print (LBytesSent bytes)
     else print LNotStreaming)
      (self,
       with_inbox
         (delivered w (OBS.request (lit "GetStreamStatus")
                                   (lit "get-stream-status")))
         rest).
Proof.
  intros Hr Hs Hi Hok Htrue Hd Hdata. unfold OBS.get_stream_status.
  rewrite (command_exchange self w _ _ rest _ Hr Hs Hi).
  now rewrite bind_eval, Hok, Htrue, bind_eval, Hd, bind_eval, Hdata.
Qed.


(** X12.  [get_stream_status] prints as it goes: when the stream is
    active and the response data has no [outputDuration], the line
    "Currently streaming" is already printed when the [KeyError] is
    raised. *)
Theorem status_report_cut_short :
  forall (self : OBSController) (w : World) (reply : pyval)
         (rest : list incoming) (status_result d active : pyval)
         (data : pydict),
    session_ready self w -> send_completes w ->
    inbox w = Msg reply :: rest ->
    OBS.request_status reply (lit "result") = Ret status_result ->
    truthy status_result = true ->
    getitem reply (lit "d") = Ret d ->
    getitem d (lit "responseData") = Ret (PyDict data) ->
    dict_get (lit "outputActive") data = Some active ->
    truthy active = true ->
    dict_get (lit "outputDuration") data = None ->
    OBS.get_stream_status (self, w)
    = (Raise (KeyError (lit "outputDuration")),
       (self,
        exchanged w
          (OBS.request (lit "GetStreamStatus") (lit "get-stream-status"))
          rest LStreaming)).
Proof.
  intros self w reply rest ok d active data Hr Hs Hi Hok Htrue Hd Hdata
         Hactive Hon Hdu.
  rewrite (status_exchange self w reply rest ok d (PyDict data) Hr Hs Hi
             Hok Htrue Hd Hdata).
  rewrite bind_eval. unfold getitem at 1. rewrite Hactive, Hon.
  unfold bind at 1, print at 1. cbn [encodes fst snd].
  rewrite bind_eval. unfold getitem. now rewrite Hdu.
Qed.


Lemma sends_at_most_command req (k : M unit) :
  preserves (fun st => sent (snd st)) k ->
  sends_at_most req (send_json req ;;; k).
Proof.
  intros Hk st. unfold bind, send_json.
  destruct (websocket (fst st)); [|now left].
  destruct (sock (snd st)); try (now left).
  destruct (send_script (snd st)) as [|[|e|] script]; cbn [fst snd];
    try (now left); right; now rewrite Hk.
Qed.

Lemma receives_one_command req (k : pyval -> M unit) :
  (forall v, preserves (fun st => inbox (snd st)) (k v)) ->
  receives_at_most_one (send_json req ;;; result <- recv_json ;; k result).
Proof.
  intros Hk st.
  assert (Hs : preserves (fun st => inbox (snd st)) (send_json req))
    by primitive_preserves.
  unfold bind. specialize (Hs st). cbn beta in Hs.
  destruct (send_json req st) as [[[]|e|] st1]; cbn [fst snd] in *;
    try (now left).
  rewrite <- Hs. unfold recv_json.
  destruct (websocket (fst st1)); [|now left].
  destruct (sock (snd st1)); try (now left).
  destruct (inbox (snd st1)) as [|[v|e] more] eqn:Ei; cbn [fst snd];
    try (now left); right; try reflexivity.
  match goal with
  | |- inbox (snd (snd (k v ?s))) = _ =>
      pose proof (Hk v s) as H; cbn beta in H; rewrite H
  end.
  reflexivity.
Qed.

(** X13.  What a command can touch.  Whatever the state and the reply,
    each command leaves the controller, the state of the connection, the
    clock and the sleeps as they were, sends nothing or its own one
    request, and takes at most one message from the inbox. *)
Theorem command_frame :
  forall command request_type request_id,
    In (command, request_type, request_id)
       [(OBS.start_streaming, lit "StartStream", lit "start-stream");
        (OBS.stop_streaming, lit "StopStream", lit "stop-stream");
        (OBS.get_stream_status, lit "GetStreamStatus",
         lit "get-stream-status")] ->
    preserves surroundings command /\
    sends_at_most (OBS.request request_type request_id) command /\
    receives_at_most_one command.
Proof.
  intros command rt rid Hin.
  destruct Hin as [[= <- <- <-]|[[= <- <- <-]|[[= <- <- <-]|[]]]];
    (split; [|split]);
    unfold OBS.start_streaming, OBS.stop_streaming, OBS.get_stream_status;
    first
      [ apply sends_at_most_command; repeat preserves_step
      | apply receives_one_command; intros ?; repeat preserves_step
      | repeat preserves_step ].
Qed.

(* ------------------------------------------------------------------ *)
(** ** More on scheduling *)

(** Computing the target only reads the clock. *)
Lemma target_time_state decimal start_time self w :
  exists k,
    snd (OBS.target_time decimal start_time (self, w))
    = (self, with_reads w k).
Proof.
  destruct w as [di so ib ss se cl rd na out].
  unfold OBS.target_time.
  destruct (strptime_HM decimal start_time) as [parsed|];
    [|now exists rd].
  unfold bind, now. cbn [fst snd clock reads with_reads].
  destruct (replace_date _ _ _ _) as [target|]; [|now eexists].
  cbn [fst snd clock reads with_reads].
  destruct (dt_le _ _); [|now eexists].
  destruct (add_one_day target); now eexists.
Qed.

Lemma sends_complete_first w : sends_complete w -> send_completes w.
Proof.
  unfold sends_complete, send_completes.
  destruct (send_script w) as [|o script]; [easy|].
  intro H. inversion H; subst. exact I.
Qed.

Lemma sends_complete_second w :
  sends_complete w ->
  match tl (send_script w) with
  | [] | Completes :: _ => True
  | _ => False
  end.
Proof.
  unfold sends_complete.
  destruct (send_script w) as [|o [|o' script]]; try easy.
  intro H. inversion H as [|? ? _ H']; subst.
  inversion H'; subst. exact I.
Qed.

(** [schedule_stream] up to the point where the stream is started, and
    between the start and the stop. *)
Lemma schedule_prefix decimal start_time self w target k (K : M unit) :
  OBS.target_time decimal start_time (self, w)
  = (Ret target, (self, with_reads w k)) ->
  (target <- OBS.target_time decimal start_time ;;
   current <- now ;;
   print (LScheduledFor target) ;;;
   print (LWaiting target current) ;;;
   sleep (NapUntil target current) ;;;
   print LStartingScheduled ;;;
   K) (self, w)
  = K (self, after_wait w k target).
Proof.
  intro Ht. unfold bind at 1. rewrite Ht.
  unfold bind, now, print, sleep, after_wait, with_stdout, with_naps,
    with_reads.
  cbn. now rewrite <- !app_assoc.
Qed.

Lemma pause_prefix minutes self w (K : M unit) :
  minutes * 60 < float_limit ->
  (print (LWillStop minutes) ;;;
   sleep (NapSeconds (minutes * 60)) ;;;
   print LStoppingScheduled ;;;
   K) (self, w)
  = K (self, after_pause w minutes).
Proof.
  intro Hfits.
  assert (Hd : delay_overflows (NapSeconds (minutes * 60)) = false)
    by (unfold delay_overflows; now apply Z.leb_gt).
  unfold bind, print, sleep. rewrite Hd.
  unfold after_pause, with_stdout, with_naps.
  cbn [encodes fst snd dial sock inbox send_script sent clock reads naps
         stdout].
  now rewrite <- !app_assoc.
Qed.

(** X14.  A scheduled stream with a duration whose seconds are within
    the range of a float, when both commands succeed: [schedule_stream]
    sleeps until the target, sends the StartStream request, sleeps for
    sixty times the number of minutes, sends the StopStream request and
    returns; these are its only two frames and its only two sleeps, and it
    leaves the connection open. *)
Theorem schedule_then_stop :
  forall (decimal : Z -> option Z) (start_time : pystr) (minutes : Z)
         (self : OBSController) (w : World) (target : datetime)
         (st1 : state) (started stopped ok1 ok2 : pyval)
         (rest : list incoming),
    OBS.target_time decimal start_time (self, w) = (Ret target, st1) ->
    session_ready self w -> sends_complete w ->
    inbox w = Msg started :: Msg stopped :: rest ->
    OBS.request_status started (lit "result") = Ret ok1 ->
    truthy ok1 = true ->
    OBS.request_status stopped (lit "result") = Ret ok2 ->
    truthy ok2 = true ->
    minutes <> 0 ->
    - float_limit < minutes * 60 < float_limit ->
    let current := clock w (reads (snd st1)) in
    let final :=
      OBS.schedule_stream decimal start_time (Some minutes) (self, w) in
    fst final = Ret tt /\
    sent (snd (snd final))
    = sent w ++ [OBS.request (lit "StartStream") (lit "start-stream");
                 OBS.request (lit "StopStream") (lit "stop-stream")] /\
    naps (snd (snd final))
    = naps w ++ [NapUntil target current; NapSeconds (minutes * 60)] /\
    stdout (snd (snd final))
    = stdout w ++ [LScheduledFor target; LWaiting target current;
                   LStartingScheduled; LStartOk; LWillStop minutes;
                   LStoppingScheduled; LStopOk] /\
    inbox (snd (snd final)) = rest /\
    connection (snd final) = (Some tt, Open).
Proof.
  intros decimal s minutes self w target st1 r1 r2 ok1 ok2 rest
         Ht Hr Hs Hi Hok1 Ht1 Hok2 Ht2 Hm [_ Hfits] current final.
  destruct (target_time_state decimal s self w) as [k Hk].
  rewrite Ht in Hk. cbn [snd] in Hk. subst st1.
  subst final current. cbn [snd reads with_reads].
  destruct Hr as [Hws Hsock].
  set (start_request := OBS.request (lit "StartStream") (lit "start-stream")).
  set (stop_request := OBS.request (lit "StopStream") (lit "stop-stream")).
  (* the wait *)
  remember (after_wait w k target) as v eqn:Ev.
  assert (Fv : sock v = Open /\ inbox v = Msg r1 :: Msg r2 :: rest /\
               send_script v = send_script w /\ sent v = sent w /\
               naps v = naps w ++ [NapUntil target (clock w k)] /\
               stdout v = stdout w ++ [LScheduledFor target;
                                       LWaiting target (clock w k);
                                       LStartingScheduled])
    by (rewrite Ev; repeat split; assumption).
  destruct Fv as (Vsock & Vin & Vscript & Vsent & Vnaps & Vout).
  assert (Vsend : send_completes v)
    by (unfold send_completes; rewrite Vscript;
        exact (sends_complete_first w Hs)).
  (* the start *)
  pose proof (start_streaming_ok self v r1 (Msg r2 :: rest) ok1
                (conj Hws Vsock) Vsend Vin Hok1 Ht1) as Hstart.
  fold start_request in Hstart.
  remember (exchanged v start_request (Msg r2 :: rest) LStartOk)
    as v1 eqn:E1.
  assert (F1 : sock v1 = Open /\ inbox v1 = Msg r2 :: rest /\
               send_script v1 = tl (send_script w) /\
               sent v1 = sent w ++ [start_request] /\
               naps v1 = naps w ++ [NapUntil target (clock w k)] /\
               stdout v1 = (stdout w ++ [LScheduledFor target;
                                         LWaiting target (clock w k);
                                         LStartingScheduled]) ++ [LStartOk]).
  { rewrite E1. unfold exchanged, delivered.
    cbn [sock inbox send_script sent naps stdout with_stdout with_inbox
           with_sent with_send_script].
    rewrite Vsock, Vscript, Vsent, Vnaps, Vout. now repeat split. }
  destruct F1 as (Ssock & Sin & Sscript & Ssent & Snaps & Sout).
  (* the pause *)
  remember (after_pause v1 minutes) as v2 eqn:E2.
  assert (F2 : sock v2 = Open /\ inbox v2 = Msg r2 :: rest /\
               send_script v2 = tl (send_script w) /\
               sent v2 = sent w ++ [start_request] /\
               naps v2 = (naps w ++ [NapUntil target (clock w k)])
                         ++ [NapSeconds (minutes * 60)] /\
               stdout v2 = ((stdout w ++ [LScheduledFor target;
                                          LWaiting target (clock w k);
                                          LStartingScheduled]) ++ [LStartOk])
                           ++ [LWillStop minutes; LStoppingScheduled]).
  { rewrite E2. unfold after_pause.
    cbn [sock inbox send_script sent naps stdout].
    repeat split; congruence. }
  destruct F2 as (Psock & Pin & Pscript & Psent & Pnaps & Pout).
  assert (Psend : send_completes v2)
    by (unfold send_completes; rewrite Pscript;
        exact (sends_complete_second w Hs)).
  (* the stop *)
  pose proof (stop_streaming_ok self v2 r2 rest ok2
                (conj Hws Psock) Psend Pin Hok2 Ht2) as Hstop.
  fold stop_request in Hstop.
  remember (exchanged v2 stop_request rest LStopOk) as v3 eqn:E3.
  assert (F3 : sock v3 = Open /\ inbox v3 = rest /\
               sent v3 = (sent w ++ [start_request]) ++ [stop_request] /\
               naps v3 = (naps w ++ [NapUntil target (clock w k)])
                         ++ [NapSeconds (minutes * 60)] /\
               stdout v3 = (((stdout w ++ [LScheduledFor target;
                                           LWaiting target (clock w k);
                                           LStartingScheduled])
                             ++ [LStartOk])
                            ++ [LWillStop minutes; LStoppingScheduled])
                           ++ [LStopOk]).
  { rewrite E3. unfold exchanged, delivered.
    cbn [sock inbox send_script sent naps stdout with_stdout with_inbox
           with_sent with_send_script].
    rewrite Psock, Psent, Pnaps, Pout. now repeat split. }
  destruct F3 as (Fsock & Fin & Fsent & Fnaps & Fout).
  (* the run *)
  assert (Hrun : OBS.schedule_stream decimal s (Some minutes) (self, w)
                 = (Ret tt, (self, v3))).
  { unfold OBS.schedule_stream, try_except.
    rewrite (schedule_prefix decimal s self w target k _ Ht), <- Ev.
    unfold bind at 1. rewrite Hstart.
    destruct (Z.eqb_spec minutes 0) as [|_]; [contradiction|].
    now rewrite (pause_prefix minutes self v1 _ Hfits), <- E2, Hstop. }
  rewrite Hrun. unfold connection. cbn [fst snd].
  rewrite Fsent, Fnaps, Fout, Fin, Fsock, Hws, <- !app_assoc.
  now repeat split.
Qed.

(** X15.  Without a duration, or with the duration 0, a scheduled
    stream is never stopped: when the start succeeds, [schedule_stream]
    returns after its one sleep and its one frame, the StartStream
    request. *)
Theorem schedule_without_stop :
  forall (decimal : Z -> option Z) (start_time : pystr)
         (duration_minutes : option Z)
         (self : OBSController) (w : World) (target : datetime)
         (st1 : state) (started ok : pyval) (rest : list incoming),
    duration_minutes = None \/ duration_minutes = Some 0 ->
    OBS.target_time decimal start_time (self, w) = (Ret target, st1) ->
    session_ready self w -> send_completes w ->
    inbox w = Msg started :: rest ->
    OBS.request_status started (lit "result") = Ret ok ->
    truthy ok = true ->
    let current := clock w (reads (snd st1)) in
    let final :=
      OBS.schedule_stream decimal start_time duration_minutes (self, w) in
    fst final = Ret tt /\
    sent (snd (snd final))
    = sent w ++ [OBS.request (lit "StartStream") (lit "start-stream")] /\
    naps (snd (snd final)) = naps w ++ [NapUntil target current] /\
    stdout (snd (snd final))
    = stdout w ++ [LScheduledFor target; LWaiting target current;
                   LStartingScheduled; LStartOk] /\
    inbox (snd (snd final)) = rest.
Proof.
  intros decimal s duration self w target st1 r1 ok rest
         Hdur Ht Hr Hs Hi Hok Htrue current final.
  destruct (target_time_state decimal s self w) as [k Hk].
  rewrite Ht in Hk. cbn [snd] in Hk. subst st1.
  subst final current. cbn [snd reads with_reads].
  cut (exists st,
          OBS.schedule_stream decimal s duration (self, w) = (Ret tt, st) /\
          sent (snd st)
          = sent w ++ [OBS.request (lit "StartStream") (lit "start-stream")] /\
          naps (snd st) = naps w ++ [NapUntil target (clock w k)] /\
          stdout (snd st)
          = stdout w ++ [LScheduledFor target; LWaiting target (clock w k);
                         LStartingScheduled; LStartOk] /\
          inbox (snd st) = rest).
  { intros (st & -> & H). exact (conj eq_refl H). }
  unfold OBS.schedule_stream, try_except.
  rewrite (schedule_prefix decimal s self w target k _ Ht).
  unfold bind at 1.
  match goal with
  | |- context [OBS.start_streaming (self, ?v)] =>
      rewrite (start_streaming_ok self v r1 rest ok Hr Hs Hi Hok Htrue)
  end.
  destruct Hdur as [-> | ->]; cbn [Z.eqb ret];
    (eexists; split; [reflexivity|]);
    cbn [fst snd clock reads naps stdout with_reads with_stdout with_naps
           after_wait dial sock inbox send_script sent exchanged delivered
           with_inbox with_sent with_send_script];
    rewrite <- !app_assoc; cbn [app]; now repeat split.
Qed.

(** X16.  [schedule_stream] never raises an [Exception]: whatever the
    time string, the clock, the connection and the replies, an exception
    that leaves it is an interrupt from outside that hierarchy; every
    failure of parsing, sending, receiving or of the commands is turned
    into a printed line. *)
Theorem schedule_swallows_exceptions :
  forall (decimal : Z -> option Z) (start_time : pystr)
         (duration_minutes : option Z),
    no_exception (OBS.schedule_stream decimal start_time duration_minutes).
Proof.
  intros decimal s duration. unfold OBS.schedule_stream.
  apply try_except_no_exception.
  - intros e He. rewrite He. now destruct (is_ValueError e).
  - intros e h.
    destruct (is_ValueError e);
      [|destruct (is_Exception e); [|discriminate]];
      intros [= <-]; now apply returns_print.
Qed.

Lemma start_streaming_fault self w e rest :
  session_ready self w -> send_completes w ->
  inbox w = Fault e :: rest ->
  OBS.start_streaming (self, w)
  = (Raise e,
     (self,
      with_inbox
        (delivered w (OBS.request (lit "StartStream") (lit "start-stream")))
        rest)).
Proof.
  intros Hr Hs Hi. unfold OBS.start_streaming, bind.
  rewrite (send_json_delivered self w Hr _ Hs).
  destruct Hr as [Hws Hsock]. unfold recv_json. cbn [fst snd].
  rewrite Hws. cbn [sock delivered with_sent with_send_script inbox].
  now rewrite Hsock, Hi.
Qed.

(** X17.  A reply that is not JSON is reported as a bad time: when the
    reply to the scheduled StartStream makes [json.loads] raise (a
    [JSONDecodeError], or any other [ValueError]), [schedule_stream] has
    parsed the time, slept and sent the request, and then prints the line
    "Invalid time format" and returns. *)
Theorem schedule_misreports_bad_reply :
  forall (decimal : Z -> option Z) (start_time : pystr)
         (duration_minutes : option Z)
         (self : OBSController) (w : World) (target : datetime)
         (st1 : state) (e : exn) (rest : list incoming),
    OBS.target_time decimal start_time (self, w) = (Ret target, st1) ->
    session_ready self w -> send_completes w ->
    inbox w = Fault e :: rest ->
    is_ValueError e = true ->
    let current := clock w (reads (snd st1)) in
    let final :=
      OBS.schedule_stream decimal start_time duration_minutes (self, w) in
    fst final = Ret tt /\
    sent (snd (snd final))
    = sent w ++ [OBS.request (lit "StartStream") (lit "start-stream")] /\
    naps (snd (snd final)) = naps w ++ [NapUntil target current] /\
    stdout (snd (snd final))
    = stdout w ++ [LScheduledFor target; LWaiting target current;
                   LStartingScheduled; LInvalidTimeFormat].
Proof.
  intros decimal s duration self w target st1 e rest
         Ht Hr Hs Hi He current final.
  destruct (target_time_state decimal s self w) as [k Hk].
  rewrite Ht in Hk. cbn [snd] in Hk. subst st1.
  subst final current. cbn [snd reads with_reads].
  cut (exists st,
          OBS.schedule_stream decimal s duration (self, w) = (Ret tt, st) /\
          sent (snd st)
          = sent w ++ [OBS.request (lit "StartStream") (lit "start-stream")] /\
          naps (snd st) = naps w ++ [NapUntil target (clock w k)] /\
          stdout (snd st)
          = stdout w ++ [LScheduledFor target; LWaiting target (clock w k);
                         LStartingScheduled; LInvalidTimeFormat]).
  { intros (st & -> & H). exact (conj eq_refl H). }
  unfold OBS.schedule_stream, try_except.
  rewrite (schedule_prefix decimal s self w target k _ Ht).
  unfold bind at 1.
  match goal with
  | |- context [OBS.start_streaming (self, ?v)] =>
      rewrite (start_streaming_fault self v e rest Hr Hs Hi)
  end.
  rewrite He. eexists. split; [reflexivity|].
  cbn [fst snd clock reads naps stdout with_reads with_stdout with_naps
         after_wait dial sock inbox send_script sent exchanged delivered with_inbox
         with_sent with_send_script print].
  rewrite <- !app_assoc. cbn [app]. now repeat split.
Qed.

(** X18.  On a controller that never obtained a connection
    [schedule_stream] fails only after the wait: it computes the target
    and sleeps until it, then the start raises [AttributeError], which is
    printed as a scheduling error; nothing is sent and [schedule_stream]
    returns normally. *)
Theorem schedule_unconnected_waits_first :
  forall (decimal : Z -> option Z) (start_time : pystr)
         (duration_minutes : option Z)
         (self : OBSController) (w : World) (target : datetime)
         (st1 : state),
    OBS.target_time decimal start_time (self, w) = (Ret target, st1) ->
    websocket self = None ->
    let current := clock w (reads (snd st1)) in
    let final :=
      OBS.schedule_stream decimal start_time duration_minutes (self, w) in
    fst final = Ret tt /\
    sent (snd (snd final)) = sent w /\
    naps (snd (snd final)) = naps w ++ [NapUntil target current] /\
    stdout (snd (snd final))
    = stdout w ++ [LScheduledFor target; LWaiting target current;
                   LStartingScheduled; LSchedulingError AttributeError].
Proof.
  intros decimal s duration self w target st1 Ht Hws current final.
  destruct (target_time_state decimal s self w) as [k Hk].
  rewrite Ht in Hk. cbn [snd] in Hk. subst st1.
  subst final current. cbn [snd reads with_reads].
  cut (exists st,
          OBS.schedule_stream decimal s duration (self, w) = (Ret tt, st) /\
          sent (snd st) = sent w /\
          naps (snd st) = naps w ++ [NapUntil target (clock w k)] /\
          stdout (snd st)
          = stdout w ++ [LScheduledFor target; LWaiting target (clock w k);
                         LStartingScheduled;
                         LSchedulingError AttributeError]).
  { intros (st & -> & H). exact (conj eq_refl H). }
  unfold OBS.schedule_stream, try_except.
  rewrite (schedule_prefix decimal s self w target k _ Ht).
  unfold bind at 1.
  match goal with
  | |- context [OBS.start_streaming (self, ?v)] =>
      destruct (commands_unconnected self v Hws) as (-> & _)
  end.
  eexists. split; [reflexivity|].
  cbn [fst snd clock reads naps stdout with_reads with_stdout with_naps
         after_wait dial sock inbox send_script sent print is_ValueError is_Exception].
  rewrite <- !app_assoc. cbn [app]. now repeat split.
Qed.

(* ------------------------------------------------------------------ *)
(** ** [main] *)

Lemma self_target_time decimal start_time :
  preserves fst (OBS.target_time decimal start_time).
Proof.
  intros [self w].
  destruct (target_time_state decimal start_time self w) as [k Hk].
  now rewrite Hk.
Qed.

Lemma self_schedule_stream decimal start_time duration :
  preserves fst (OBS.schedule_stream decimal start_time duration).
Proof.
  unfold OBS.schedule_stream. apply preserves_try_except.
  - apply preserves_bind; [apply self_target_time|intros ?].
    unfold OBS.start_streaming, OBS.stop_streaming.
    repeat preserves_step.
  - intros e h.
    destruct (is_ValueError e);
      [|destruct (is_Exception e); [|discriminate]];
      intros [= <-]; repeat preserves_step.
Qed.

Lemma self_dispatch decimal args :
  preserves fst (Main.dispatch decimal args).
Proof.
  unfold Main.dispatch. destruct (Main.action args).
  - unfold OBS.start_streaming. repeat preserves_step.
  - unfold OBS.stop_streaming. repeat preserves_step.
  - unfold OBS.get_stream_status. repeat preserves_step.
  - destruct (Main.time args) as [[|c s]|]; try apply preserves_ret.
    apply self_schedule_stream.
Qed.

(** [try: body finally: disconnect] on a controller that holds a
    connection. *)
Lemma finally_disconnect (body : M unit) st :
  preserves fst body ->
  websocket (fst st) = Some tt ->
  match body st with
  | (Hang, st') => try_finally body OBS.disconnect st = (Hang, st')
  | (r, st') =>
      try_finally body OBS.disconnect st
      = (r, (fst st,
             with_stdout (with_sock (snd st') Closed)
                         (stdout (snd st') ++ [LDisconnected])))
  end.
Proof.
  intros Hk Hws. unfold try_finally. specialize (Hk st).
  destruct (body st) as [r [c' w']]. cbn [fst snd] in Hk. subst c'.
  destruct r as [[]|e|]; rewrite ?disconnect_unfold, ?Hws; reflexivity.
Qed.

(** X19.  [main] releases the connection: when [connect] returned [True]
    and the chosen action returns or raises, the connection is closed
    when [main] ends, for each of the four actions, and what the action
    raised is raised by [main]. *)
Theorem main_releases_connection :
  forall (decimal : Z -> option Z) (args : Main.Namespace) (w : World)
         (st : state),
    OBS.connect
      (OBS.__init__ (Main.host args) (Main.port args) (Main.password args), w)
    = (Ret true, st) ->
    let m := Main.main decimal args w in
    Main.result m = fst (Main.dispatch decimal args st) /\
    (Main.result m <> Hang ->
     connection (Main.final m) = (Some tt, Closed) /\
     exists printed,
       stdout (snd (Main.final m)) = printed ++ [LDisconnected]).
Proof.
  intros decimal args w st Hc m. subst m. unfold Main.main. rewrite Hc.
  pose proof (connect_true_holds_connection _ _ _ Hc) as Hws.
  pose proof (finally_disconnect (Main.dispatch decimal args) st
                (self_dispatch decimal args) Hws) as Hf.
  destruct (Main.dispatch decimal args st) as [r st'].
  destruct r as [[]|e|]; rewrite Hf; cbn [Main.result Main.final fst snd];
    (split; [reflexivity|]); intro Hne; try (now elim Hne);
    unfold connection; cbn [fst snd sock with_stdout with_sock stdout];
    rewrite Hws; (split; [reflexivity|]); eexists; reflexivity.
Qed.

(** X20.  The action [schedule] without [--time], or with an empty one:
    after a successful [connect], [main] sends no command and takes no
    sleep; it prints the line about the missing time, then disconnects,
    the [return] inside the [try] going through the [finally]. *)
Theorem main_schedule_without_time :
  forall (decimal : Z -> option Z) (args : Main.Namespace) (w : World)
         (st : state),
    Main.action args = Main.schedule ->
    Main.no_time args = true ->
    OBS.connect
      (OBS.__init__ (Main.host args) (Main.port args) (Main.password args), w)
    = (Ret true, st) ->
    Main.main decimal args w
    = Main.mkEnding
        (Ret tt)
        (fst st,
         with_stdout (with_sock (snd st) Closed)
                     (stdout (snd st) ++ [LDisconnected]))
        (Some (List.length (stdout (snd st)))).
Proof.
  intros decimal args w st Ha Hno Hc. unfold Main.main. rewrite Hc, Ha, Hno.
  pose proof (connect_true_holds_connection _ _ _ Hc) as Hws.
  assert (Hd : Main.dispatch decimal args = ret tt).
  { unfold Main.dispatch. rewrite Ha. unfold Main.no_time in Hno.
    now destruct (Main.time args) as [[|c s]|]. }
  rewrite Hd. unfold try_finally. cbn [ret].
  destruct st as [c v]. cbn [fst snd] in *.
  now rewrite disconnect_unfold, Hws.
Qed.

(** X21.  When [connect] returns [False], [main] does nothing more: no
    command, no [disconnect].  After a handshake that failed once the
    connection was made, [main] therefore ends with the connection still
    open. *)
Theorem main_connect_failed :
  forall (decimal : Z -> option Z) (args : Main.Namespace) (w : World),
    let controller :=
      OBS.__init__ (Main.host args) (Main.port args) (Main.password args) in
    fst (OBS.connect (controller, w)) = Ret false ->
    Main.main decimal args w
    = Main.mkEnding (Ret tt) (snd (OBS.connect (controller, w))) None /\
    (dial w = Completes ->
     connection (Main.final (Main.main decimal args w)) = (Some tt, Open)).
Proof.
  intros decimal args w controller Hfalse.
  pose proof (connect_keeps_connection controller w) as Hopen.
  unfold Main.main. fold controller.
  destruct (OBS.connect (controller, w)) as [r st]. cbn [fst snd] in *.
  subst r. split; [reflexivity|exact Hopen].
Qed.

(** X22.  The trigger of [obs-auto.py] is [main] with the action
    [start], the host "localhost", the port 4455 and the password of
    the script: same result, same final state. *)
Theorem trigger_is_main_start :
  forall (decimal : Z -> option Z) (time : option pystr)
         (duration : option Z) (w : World),
    let m :=
      Main.main decimal
        (Main.mkNamespace Main.start (lit "localhost") 4455
                          (Some (lit "Oindia001")) time duration) w in
    Auto.start_stream w = (Main.result m, Main.final m).
Proof.
  intros decimal time duration w m. subst m.
  unfold Auto.start_stream, Main.main, bind.
  cbn [Main.host Main.port Main.password Main.action].
  destruct (OBS.connect _) as [[[|]|e|] st]; try reflexivity.
  unfold Main.dispatch. cbn [Main.action].
  now destruct (try_finally OBS.start_streaming OBS.disconnect st).
Qed.

(* ------------------------------------------------------------------ *)
(** ** The shape of the token *)

Section TokenShape.

Lemma be_bytes_length n x : List.length (Codec.be_bytes n x) = n.
Proof.
  revert x. induction n as [|n IH]; intro x; [reflexivity|].
  cbn [Codec.be_bytes]. rewrite length_app, IH. cbn. lia.
Qed.

Lemma compress_length h block :
  List.length h = 8%nat -> List.length (Codec.compress h block) = 8%nat.
Proof.
  intro H. unfold Codec.compress.
  rewrite length_map, length_combine, H. reflexivity.
Qed.

Lemma sha_blocks_length n :
  forall h bs,
    List.length h = 8%nat -> List.length (Codec.sha_blocks n h bs) = 8%nat.
Proof.
  induction n as [|n IH]; intros h bs H; [exact H|].
  cbn [Codec.sha_blocks]. apply IH. now apply compress_length.
Qed.

Lemma sha256_length m : List.length (Codec.sha256 m) = 32%nat.
Proof.
  unfold Codec.sha256.
  pose proof (sha_blocks_length
                (Nat.div (List.length (Codec.sha_pad m)) 64)
                Codec.sha_init (Codec.sha_pad m) eq_refl) as H.
  destruct (Codec.sha_blocks _ _ _)
    as [|a [|b [|c [|d [|e [|f [|g [|h [|]]]]]]]]]; try discriminate.
  cbn [flat_map]. rewrite !length_app, !be_bytes_length. reflexivity.
Qed.

Lemma b64encode_digest_shape bs :
  List.length bs = 32%nat ->
  List.length (Codec.b64encode bs) = 44%nat /\
  last (Codec.b64encode bs) 0 = Codec.pad_char.
Proof.
  intro H.
  do 33 (destruct bs as [|? bs]; try discriminate).
  split; reflexivity.
Qed.

End TokenShape.

(** X23.  The token placed in the Identify message is always 44 ASCII
    characters, the last one "=": the base64 text of a 32-byte digest. *)
Theorem token_shape :
  forall (self : OBSController) (w : World) (hello_data message : pyval)
         (d auth_data : pydict) (secret salt challenge : pystr),
    password self = Some secret -> secret <> [] ->
    getitem hello_data (lit "d") = Ret (PyDict d) ->
    dict_get (lit "authentication") d = Some (PyDict auth_data) ->
    dict_get (lit "challenge") auth_data = Some (PyStr challenge) ->
    dict_get (lit "salt") auth_data = Some (PyStr salt) ->
    fst (OBS.identify_message hello_data (self, w)) = Ret message ->
    exists token,
      message = OBS.identify_with token /\
      List.length token = 44%nat /\
      Forall ascii token /\
      last token 0 = 61.
Proof.
  intros self w hello message d auth secret salt challenge
         Hpw Hne Hd Hauth Hch Hsalt.
  rewrite (identify_message_token self w hello d auth secret salt challenge
             Hpw Hne Hd Hauth Hch Hsalt).
  unfold Spec.token.
  destruct (Codec.encode (secret ++ salt)) as [salted|]; [|discriminate].
  destruct (Codec.encode challenge) as [ct|]; [|discriminate].
  cbn [fst]. intros [= <-]. eexists. split; [reflexivity|].
  destruct (b64encode_digest_shape _ (sha256_length
              (Codec.b64encode (Codec.sha256 salted) ++ ct))) as [Hl Hlast].
  repeat split; [exact Hl|apply digest_text_ascii|exact Hlast].
Qed.

(* ------------------------------------------------------------------ *)
(** ** The further properties on concrete sessions *)

Section MoreConcrete.

Import Examples MoreExamples.

Lemma identify_without_challenge_witness :
  OBS._send_identify greeting_open
    (connected (Some (lit "pw")), live_world [] sunday_0900)
  = send_json
      (PyDict [(lit "op", PyInt 1);
               (lit "d", PyDict [(lit "rpcVersion", PyInt 1)])])
      (connected (Some (lit "pw")),
       with_stdout (live_world [] sunday_0900) [LNoAuthRequired]).
Proof.
  apply (identify_without_challenge
           (connected (Some (lit "pw"))) (live_world [] sunday_0900)
           greeting_open [(lit "rpcVersion", PyInt 1)]);
    reflexivity.
Defined.

Lemma connect_verdict_witness :
  let w := fresh_world [Msg greeting_open; Msg not_identified] sunday_0900 in
  fst (OBS.connect (controller None, w)) = Ret false /\
  sent (snd (snd (OBS.connect (controller None, w)))) = [OBS.identify_plain].
Proof.
  intro w.
  destruct (connect_verdict (controller None) w greeting_open not_identified
              OBS.identify_plain [] eq_refl eq_refl eq_refl I)
    as (Hr & Hs & _).
  split; [exact Hr|exact Hs].
Defined.

Lemma connect_authenticated_witness :
  let w := fresh_world [Msg greeting_challenge; Msg identified] sunday_0900 in
  fst (OBS.connect (controller (Some (lit "pw")), w)) = Ret true /\
  sent (snd (snd (OBS.connect (controller (Some (lit "pw")), w))))
  = [PyDict [(lit "op", PyInt 1);
             (lit "d", PyDict [(lit "rpcVersion", PyInt 1);
                               (lit "authentication",
                                PyStr token_pw_s1_c1)])]].
Proof.
  intro w.
  apply (connect_authenticated
           (controller (Some (lit "pw"))) w greeting_challenge identified
           greeting_d_challenge challenge_c1_s1
           (lit "pw") (lit "s1") (lit "c1") token_pw_s1_c1 []).
  - reflexivity.
  - discriminate.
  - reflexivity.
  - reflexivity.
  - reflexivity.
  - reflexivity.
  - vm_compute. reflexivity.
  - reflexivity.
  - reflexivity.
  - exact I.
  - reflexivity.
Defined.

Lemma connect_dial_failure_witness :
  OBS.connect (controller None, refused_world)
  = (Ret false,
     (controller None,
      with_stdout refused_world [LCouldNotConnect; LMakeSureRunning])).
Proof.
  apply (connect_dial_failure (controller None) refused_world
           ConnectionRefusedError); reflexivity.
Defined.

Lemma failed_handshake_witness :
  let w := fresh_world [Msg greeting_open; Msg not_identified] sunday_0900 in
  fst (Auto.start_stream w) = Ret tt /\
  connection (snd (Auto.start_stream w)) = (Some tt, Open).
Proof.
  intro w.
  destruct (failed_handshake_leaves_connection_open w eq_refl) as [H1 H2].
  - vm_compute. reflexivity.
  - split; [now rewrite H1|exact H2].
Defined.

Lemma commands_need_connection_witness :
  OBS.start_streaming (controller None, fresh_world [] sunday_0900)
  = (Raise AttributeError, (controller None, fresh_world [] sunday_0900)).
Proof.
  apply (commands_need_connection (controller None)
           (fresh_world [] sunday_0900)).
  reflexivity.
Defined.

Lemma command_success_witness :
  let w := live_world [Msg reply_ok] sunday_0900 in
  OBS.start_streaming (connected None, w)
  = (Ret tt,
     (connected None,
      exchanged w (OBS.request (lit "StartStream") (lit "start-stream")) []
                LStartOk)).
Proof.
  intro w.
  apply (command_success (connected None) w reply_ok [] (PyBool true));
    first [reflexivity | exact I | split; reflexivity].
Defined.

Lemma command_malformed_reply_witness :
  let w := live_world [Msg (PyDict [])] sunday_0900 in
  fst (OBS.start_streaming (connected None, w)) = Raise (KeyError (lit "d")).
Proof.
  intro w.
  destruct (command_malformed_reply (connected None) w (PyDict []) []
              (KeyError (lit "d")) (conj eq_refl eq_refl) I eq_refl eq_refl)
    as (_ & H & _).
  now rewrite H.
Defined.

Lemma failure_without_comment_witness :
  let w := live_world [Msg reply_no_comment] sunday_0900 in
  fst (OBS.start_streaming (connected None, w))
  = Raise (KeyError (lit "comment")) /\
  stdout (snd (snd (OBS.start_streaming (connected None, w)))) = [].
Proof.
  intro w.
  destruct (failure_without_comment (connected None) w reply_no_comment []
              (PyBool false) (KeyError (lit "comment"))
              (conj eq_refl eq_refl) I eq_refl eq_refl eq_refl eq_refl)
    as (_ & H).
  apply (H OBS.start_streaming). now left.
Defined.


Lemma status_report_cut_short_witness :
  let w := live_world [Msg (status_reply stream_active_bare)] sunday_0900 in
  OBS.get_stream_status (connected None, w)
  = (Raise (KeyError (lit "outputDuration")),
     (connected None,
      exchanged w
        (OBS.request (lit "GetStreamStatus") (lit "get-stream-status"))
        [] LStreaming)).
Proof.
  intro w.
  apply (status_report_cut_short (connected None) w
           (status_reply stream_active_bare) [] (PyBool true)
           (PyDict [(lit "requestType", PyStr (lit "GetStreamStatus"));
                    (lit "requestId", PyStr (lit "get-stream-status"));
                    (lit "requestStatus", PyDict status_ok);
                    (lit "responseData", PyDict stream_active_bare)])
           (PyBool true) stream_active_bare);
    first [reflexivity | exact I | split; reflexivity].
Defined.


Lemma command_frame_witness :
  preserves surroundings OBS.stop_streaming /\
  sends_at_most (OBS.request (lit "StopStream") (lit "stop-stream"))
                OBS.stop_streaming /\
  receives_at_most_one OBS.stop_streaming.
Proof.
  apply (command_frame OBS.stop_streaming (lit "StopStream")
           (lit "stop-stream")).
  right. left. reflexivity.
Defined.

Lemma schedule_then_stop_witness :
  let w := live_world [Msg reply_ok; Msg reply_stopped] sunday_0900 in
  let final :=
    OBS.schedule_stream ascii_decimal (lit "08:30") (Some 30)
                        (connected None, w) in
  fst final = Ret tt /\
  sent (snd (snd final))
  = [OBS.request (lit "StartStream") (lit "start-stream");
     OBS.request (lit "StopStream") (lit "stop-stream")] /\
  naps (snd (snd final))
  = [NapUntil (DateTime 2025 11 3 8 30 0 0) sunday_0900; NapSeconds 1800].
Proof.
  intros w final.
  destruct (schedule_then_stop ascii_decimal (lit "08:30") 30
              (connected None) w (DateTime 2025 11 3 8 30 0 0)
              (connected None, with_reads w 4)
              reply_ok reply_stopped (PyBool true) (PyBool true) []
              eq_refl (conj eq_refl eq_refl) (Forall_nil _) eq_refl
              eq_refl eq_refl eq_refl eq_refl)
    as (H1 & H2 & H3 & _);
    [discriminate | split; vm_compute; reflexivity |].
  repeat split; assumption.
Defined.

(** A duration beyond the range of a float, [10 ** 400] minutes: the
    stream is started, the line about the automatic stop is printed, the
    second sleep raises [OverflowError], which is reported as a scheduling
    error, and the stream is never stopped. *)
Example duration_out_of_range :
  let w := live_world [Msg reply_ok; Msg reply_stopped] sunday_0900 in
  let final :=
    OBS.schedule_stream ascii_decimal (lit "08:30") (Some (10 ^ 400))
                        (connected None, w) in
  fst final = Ret tt /\
  sent (snd (snd final))
  = [OBS.request (lit "StartStream") (lit "start-stream")] /\
  naps (snd (snd final))
  = [NapUntil (DateTime 2025 11 3 8 30 0 0) sunday_0900] /\
  inbox (snd (snd final)) = [Msg reply_stopped] /\
  skipn 4 (stdout (snd (snd final)))
  = [LWillStop (10 ^ 400); LSchedulingError OverflowError].
Proof. vm_compute. repeat split; reflexivity. Qed.

Lemma schedule_without_stop_witness :
  let w := live_world [Msg reply_ok] sunday_0700 in
  let final :=
    OBS.schedule_stream ascii_decimal (lit "08:30") (Some 0)
                        (connected None, w) in
  fst final = Ret tt /\
  sent (snd (snd final))
  = [OBS.request (lit "StartStream") (lit "start-stream")] /\
  naps (snd (snd final))
  = [NapUntil (DateTime 2025 11 2 8 30 0 0) sunday_0700].
Proof.
  intros w final.
  destruct (schedule_without_stop ascii_decimal (lit "08:30") (Some 0)
              (connected None) w (DateTime 2025 11 2 8 30 0 0)
              (connected None, with_reads w 4)
              reply_ok (PyBool true) []
              (or_intror eq_refl) eq_refl (conj eq_refl eq_refl) I
              eq_refl eq_refl eq_refl)
    as (H1 & H2 & H3 & _).
  repeat split; assumption.
Defined.

Lemma schedule_misreports_bad_reply_witness :
  let w := live_world [Fault JSONDecodeError] sunday_0900 in
  let final :=
    OBS.schedule_stream ascii_decimal (lit "08:30") None
                        (connected None, w) in
  fst final = Ret tt /\
  stdout (snd (snd final))
  = [LScheduledFor (DateTime 2025 11 3 8 30 0 0);
     LWaiting (DateTime 2025 11 3 8 30 0 0) sunday_0900;
     LStartingScheduled; LInvalidTimeFormat].
Proof.
  intros w final.
  destruct (schedule_misreports_bad_reply ascii_decimal (lit "08:30") None
              (connected None) w (DateTime 2025 11 3 8 30 0 0)
              (connected None, with_reads w 4) JSONDecodeError []
              eq_refl (conj eq_refl eq_refl) I eq_refl eq_refl)
    as (H1 & _ & _ & H4).
  split; assumption.
Defined.

Lemma schedule_unconnected_witness :
  let w := fresh_world [] sunday_0900 in
  let final :=
    OBS.schedule_stream ascii_decimal (lit "08:30") None
                        (controller None, w) in
  fst final = Ret tt /\
  naps (snd (snd final))
  = [NapUntil (DateTime 2025 11 3 8 30 0 0) sunday_0900] /\
  stdout (snd (snd final))
  = [LScheduledFor (DateTime 2025 11 3 8 30 0 0);
     LWaiting (DateTime 2025 11 3 8 30 0 0) sunday_0900;
     LStartingScheduled; LSchedulingError AttributeError].
Proof.
  intros w final.
  destruct (schedule_unconnected_waits_first ascii_decimal (lit "08:30") None
              (controller None) w (DateTime 2025 11 3 8 30 0 0)
              (controller None, with_reads w 4) eq_refl eq_refl)
    as (H1 & _ & H3 & H4).
  repeat split; assumption.
Defined.

Lemma main_releases_connection_witness :
  let w := fresh_world [Msg greeting_open; Msg identified; Msg reply_ok]
                       sunday_0900 in
  let m := Main.main ascii_decimal (cli Main.start None None) w in
  Main.result m = Ret tt /\
  connection (Main.final m) = (Some tt, Closed).
Proof.
  intros w m.
  destruct (main_releases_connection ascii_decimal
              (cli Main.start None None) w
              (snd (OBS.connect (controller None, w))))
    as (H1 & H2).
  - vm_compute. reflexivity.
  - split; [exact H1|]. apply H2. discriminate.
Defined.

Lemma main_schedule_without_time_witness :
  let w := fresh_world [Msg greeting_open; Msg identified] sunday_0900 in
  let m := Main.main ascii_decimal (cli Main.schedule None (Some 30)) w in
  Main.result m = Ret tt /\
  sent (snd (Main.final m)) = [OBS.identify_plain] /\
  naps (snd (Main.final m)) = [] /\
  Main.time_required m = Some 4%nat /\
  stdout (snd (Main.final m))
  = [LConnected (lit "localhost") 4455; LReceivedHello; LNoAuthRequired;
     LIdentified; LDisconnected].
Proof.
  intros w m. subst m.
  rewrite (main_schedule_without_time ascii_decimal
             (cli Main.schedule None (Some 30)) w
             (snd (OBS.connect (controller None, w)))
             eq_refl eq_refl);
    [|vm_compute; reflexivity].
  repeat split.
Defined.

Lemma main_connect_failed_witness :
  let w := fresh_world [Msg greeting_open; Msg not_identified] sunday_0900 in
  let m := Main.main ascii_decimal (cli Main.stop None None) w in
  Main.result m = Ret tt /\
  connection (Main.final m) = (Some tt, Open).
Proof.
  intros w m.
  destruct (main_connect_failed ascii_decimal (cli Main.stop None None) w)
    as (H1 & H2).
  - vm_compute. reflexivity.
  - split; [subst m; now rewrite H1|exact (H2 eq_refl)].
Defined.

Lemma token_shape_witness :
  exists token,
    OBS.identify_with token_pw_s1_c1 = OBS.identify_with token /\
    List.length token = 44%nat /\
    Forall ascii token /\
    last token 0 = 61.
Proof.
  apply (token_shape
           (connected (Some (lit "pw"))) (live_world [] sunday_0900)
           greeting_challenge (OBS.identify_with token_pw_s1_c1)
           greeting_d_challenge challenge_c1_s1
           (lit "pw") (lit "s1") (lit "c1")).
  - reflexivity.
  - discriminate.
  - reflexivity.
  - reflexivity.
  - reflexivity.
  - reflexivity.
  - vm_compute. reflexivity.
Defined.

End MoreConcrete.
